(** * adafruit_airlift.esp32: the ESP32 co-processor controller

    A shallow embedding of [adafruit_airlift/esp32.py] (class [ESP32]) and
    the properties of its mode arbitration and reset sequence.

    The class is ordinary Python: an instance is a dictionary of attributes,
    methods run statements in order, and any statement may raise.  The
    embedding keeps all three: the instance dictionary is a [gmap] from
    attribute names to values, methods are computations in a state-and-
    exception monad, and the collaborators the class talks to (the pins of
    [digitalio], the serial channel of [busio], [time.sleep], [print] and
    the [_bleio] module) act on an explicit board state that also records
    the trace of I/O events. *)

From Stdlib Require Import ZArith NArith List Bool Lia.
From Stdlib Require Import Strings.Byte.
From stdpp Require Import base gmap strings list.

Local Open Scope string_scope.
Local Open Scope Z_scope.

(** ** Values, exceptions and the board *)

(** A Python [bytes] object. *)
Abbreviation bytes := (list byte).

(** A Python [str], as its sequence of code points. *)
Abbreviation text := (list N).

(** [digitalio.Direction]. *)
Inductive Direction := INPUT | OUTPUT.

(** What a claimed board pin is used for: a [digitalio.DigitalInOut] with
    its direction and level, or one of the two lines of a [busio.UART]. *)
Inductive PinUse :=
| Digital (d : Direction) (level : bool)
| Serial.

(** An SPI bus object: the board's default bus [board.SPI()] or one handed
    in by the caller.  The class only stores it; the pins on which
    [board.SPI()] builds the default bus are not part of the board state
    written down here. *)
Inductive SPIBus :=
| board_SPI
| caller_SPI (name : string).

(** The Python values an attribute of [ESP32] can hold.  Objects that live
    on the board are named by the pins they were built on. *)
Inductive Value :=
| VNone
| VInt (n : Z)
| VBool (b : bool)
| VPin (pin : string)
| VUart (tx rx : string) (baudrate timeout receiver_buffer_size : Z)
| VSpi (bus : SPIBus)
| VMethod (name : string).

(** The exceptions that reach the caller. *)
Inductive Exn :=
| RuntimeError (msg : string)
| NotImplementedError
| AttributeError (name : string)
| ImportError (module : string)
| ValueError (msg : string)
| UnicodeError.

(** What [start_bluetooth] hands back: the board-wide [_bleio.adapter], or
    the object built by [_bleio.Adapter(uart=..., rts=..., cts=...)], which
    remembers its three arguments. *)
Inductive AdapterHandle :=
| bleio_adapter
| bleio_Adapter (uart rts cts : Value).

(** One observable I/O action. *)
Inductive Event :=
| EvSwitchToOutput (pin : string) (level : bool)
| EvSetValue (pin : string) (level : bool)
| EvSleep (milliseconds : Z)
| EvInWaiting (count : nat)
| EvRead (got : option bytes)
| EvPrint (message : text).

#[global] Instance Direction_eq_dec : EqDecision Direction.
Proof. solve_decision. Defined.
#[global] Instance PinUse_eq_dec : EqDecision PinUse.
Proof. solve_decision. Defined.
#[global] Instance SPIBus_eq_dec : EqDecision SPIBus.
Proof. solve_decision. Defined.
#[global] Instance Value_eq_dec : EqDecision Value.
Proof. solve_decision. Defined.
#[global] Instance Exn_eq_dec : EqDecision Exn.
Proof. solve_decision. Defined.

(** The state a method runs in.

    - [attrs] is the instance dictionary of [self].
    - [pins] are the board pins claimed so far.
    - [rx_buffer] is what the serial receiver holds and has not been read.
    - [wire] is what the co-processor is still going to send: one burst of
      bytes reaches the receiver each time the host lets time pass (a
      [time.sleep], or the time a [read] takes).  Bursts may be empty, so
      any finite timing of the transmission can be written down.
    - [has_bleio] tells whether the firmware provides the [_bleio] module.
    - [trace] lists the I/O events so far, the latest first. *)
Record State := mkState {
  attrs : gmap string Value;
  pins : gmap string PinUse;
  rx_buffer : bytes;
  wire : list bytes;
  has_bleio : bool;
  trace : list Event;
}.

Definition with_attrs (a : gmap string Value) (s : State) : State :=
  mkState a (pins s) (rx_buffer s) (wire s) (has_bleio s) (trace s).
Definition with_pins (p : gmap string PinUse) (s : State) : State :=
  mkState (attrs s) p (rx_buffer s) (wire s) (has_bleio s) (trace s).
Definition with_rx (b : bytes) (s : State) : State :=
  mkState (attrs s) (pins s) b (wire s) (has_bleio s) (trace s).
Definition with_wire (w : list bytes) (s : State) : State :=
  mkState (attrs s) (pins s) (rx_buffer s) w (has_bleio s) (trace s).
Definition emit (e : Event) (s : State) : State :=
  mkState (attrs s) (pins s) (rx_buffer s) (wire s) (has_bleio s) (e :: trace s).

(** ** The monad of Python statements *)

(** How a computation ends: with a value, with an exception, or cut off
    because a loop used up its fuel. *)
Inductive Outcome (A : Type) :=
| Returns (a : A)
| Raises (e : Exn)
| OutOfFuel.
Arguments Returns {A} a.
Arguments Raises {A} e.
Arguments OutOfFuel {A}.

Definition Py (A : Type) : Type := State -> Outcome A * State.

Definition ret {A} (a : A) : Py A := fun s => (Returns a, s).
Definition raise {A} (e : Exn) : Py A := fun s => (Raises e, s).
Definition bind {A B} (m : Py A) (k : A -> Py B) : Py B :=
  fun s =>
    match m s with
    | (Returns a, s') => k a s'
    | (Raises e, s') => (Raises e, s')
    | (OutOfFuel, s') => (OutOfFuel, s')
    end.
Definition get : Py State := fun s => (Returns s, s).
Definition modify (f : State -> State) : Py unit := fun s => (Returns tt, f s).

Declare Scope py_scope.
Delimit Scope py_scope with py.
Notation "x <- m ;; k" := (bind m (fun x => k))
  (at level 20, m at level 99, k at level 200, format "x  <-  m  ;;  '/' k") : py_scope.
Notation "m ;; k" := (bind m (fun _ => k))
  (at level 100, k at level 200, right associativity, format "m  ;;  '/' k") : py_scope.
Local Open Scope py_scope.

(** [try: body except <caught>: handler]. *)
Definition try_except {A} (body : Py A) (caught : Exn -> bool) (handler : Py A) : Py A :=
  fun s =>
    match body s with
    | (Raises e, s') => if caught e then handler s' else (Raises e, s')
    | r => r
    end.

(** [while cond: body], with the local variables of the loop passed along. *)
Fixpoint while {L} (fuel : nat) (cond : L -> Py bool) (body : L -> Py L) (l : L) : Py L :=
  match fuel with
  | O => fun s => (OutOfFuel, s)
  | S fuel' =>
      c <- cond l ;;
      if c : bool then l' <- body l ;; while fuel' cond body l' else ret l
  end.

(** ** Python's data model, as far as the class uses it *)

(** Truth value of an object. *)
Definition truthy (v : Value) : bool :=
  match v with
  | VNone => false
  | VInt n => negb (n =? 0)
  | VBool b => b
  | _ => true
  end.

Definition as_number (v : Value) : option Z :=
  match v with
  | VInt n => Some n
  | VBool b => Some (Z.b2z b)
  | _ => None
  end.

(** [a == b]: numbers compare by value ([bool] is a subclass of [int]),
    everything else by identity. *)
Definition py_eq (a b : Value) : bool :=
  match as_number a, as_number b with
  | Some x, Some y => x =? y
  | _, _ => bool_decide (a = b)
  end.

(** [a != b]. *)
Definition py_ne (a b : Value) : bool := negb (py_eq a b).

(** Modelled from the spec: [bytes.decode("utf-8")] is a builtin of the
    interpreter, of which the specification says only that it decodes UTF-8
    text or fails.  The methods below take the decoder as a parameter;
    this module gives the decoder of the standard (RFC 3629: shortest forms
    only, no surrogates, nothing above U+10FFFF) as the instance on which
    they are run. *)
Module Utf8.
Local Open Scope N_scope.

Definition continuation (b : byte) : option N :=
  let n := Byte.to_N b in
  if (0x80 <=? n) && (n <=? 0xBF) then Some (n - 0x80) else None.

Fixpoint decode (b : bytes) : option text :=
  match b with
  | [] => Some []
  | b0 :: r0 =>
      let n0 := Byte.to_N b0 in
      if n0 <? 0x80 then cons n0 <$> decode r0
      else if n0 <? 0xC2 then None
      else if n0 <? 0xE0 then
        match r0 with
        | b1 :: r1 =>
            match continuation b1 with
            | Some c1 => cons ((n0 - 0xC0) * 0x40 + c1) <$> decode r1
            | None => None
            end
        | _ => None
        end
      else if n0 <? 0xF0 then
        match r0 with
        | b1 :: b2 :: r2 =>
            match continuation b1, continuation b2 with
            | Some c1, Some c2 =>
                let cp := (n0 - 0xE0) * 0x1000 + c1 * 0x40 + c2 in
                if (cp <? 0x800) || ((0xD800 <=? cp) && (cp <=? 0xDFFF)) then None
                else cons cp <$> decode r2
            | _, _ => None
            end
        | _ => None
        end
      else if n0 <? 0xF5 then
        match r0 with
        | b1 :: b2 :: b3 :: r3 =>
            match continuation b1, continuation b2, continuation b3 with
            | Some c1, Some c2, Some c3 =>
                let cp := (n0 - 0xF0) * 0x40000 + c1 * 0x1000 + c2 * 0x40 + c3 in
                if (cp <? 0x10000) || (0x10FFFF <? cp) then None
                else cons cp <$> decode r3
            | _, _, _ => None
            end
        | _ => None
        end
      else None
  end.

End Utf8.

(** ** The collaborators

    [digitalio], [busio], [time], [print] and [_bleio] are not part of the
    package.  Each is written down as far as the class uses it, after the
    external interfaces of the specification: a line can be configured and
    written, the serial channel tells how many bytes are available and
    hands over the available bytes without blocking, the adapter factory is
    built from the serial channel and the two flow-control lines. *)

(** Modelled from the spec: the passing of time on the serial line, which
    belongs to the co-processor.  The next burst on the wire reaches the
    receiver. *)
Definition tick (s : State) : State :=
  match wire s with
  | [] => s
  | burst :: later => with_wire later (with_rx (rx_buffer s ++ burst)%list s)
  end.

Module time.

(** Modelled from the spec: [time.sleep], the blocking wait of the reset
    sequence, with the duration in milliseconds. *)
Definition sleep (milliseconds : Z) : Py unit :=
  modify (fun s => tick (emit (EvSleep milliseconds) s)).

End time.

(** Modelled from the spec: [print(message)], the console output of the
    debug branch.  The console is taken to accept every text: a [print]
    that raises is not part of this model. *)
Definition print (message : text) : Py unit := modify (emit (EvPrint message)).

(** Modelled from the spec: lines are owned exclusively.  A pin is claimed
    by the first object built on it; a second one is refused. *)
Definition claim_pin (pin : string) (use : PinUse) : Py unit :=
  s <- get ;;
  match pins s !! pin with
  | Some _ => raise (ValueError (pin +:+ " in use"))
  | None => modify (with_pins (<[pin := use]> (pins s)))
  end.

Module digitalio.

(** Modelled from the spec: [digitalio.DigitalInOut(pin)], a digital line
    handle; a fresh object, an input to begin with. *)
Definition DigitalInOut (pin : string) : Py Value :=
  claim_pin pin (Digital INPUT false) ;;
  ret (VPin pin).

(** Modelled from the spec: [obj.switch_to_output(level)], configuring
    direction and level in one step. *)
Definition switch_to_output (obj : Value) (level : bool) : Py unit :=
  match obj with
  | VPin pin =>
      s <- get ;;
      match pins s !! pin with
      | Some (Digital _ _) =>
          modify (fun s => emit (EvSwitchToOutput pin level)
                             (with_pins (<[pin := Digital OUTPUT level]> (pins s)) s))
      | _ => raise (ValueError "Object has been deinitialized and can no longer be used")
      end
  | _ => raise (AttributeError "switch_to_output")
  end.

(** Modelled from the spec: [obj.value = level], writing the level of a
    line; only an output can be written. *)
Definition set_value (obj : Value) (level : bool) : Py unit :=
  match obj with
  | VPin pin =>
      s <- get ;;
      match pins s !! pin with
      | Some (Digital OUTPUT _) =>
          modify (fun s => emit (EvSetValue pin level)
                             (with_pins (<[pin := Digital OUTPUT level]> (pins s)) s))
      | Some (Digital INPUT _) =>
          raise (AttributeError "Cannot set value when direction is input.")
      | _ => raise (ValueError "Object has been deinitialized and can no longer be used")
      end
  | _ => raise (AttributeError "value")
  end.

End digitalio.

Module busio.

(** Modelled from the spec:
    [busio.UART(tx, rx, baudrate=..., timeout=..., receiver_buffer_size=...)],
    the serial channel; it claims both lines and starts with an empty
    receive buffer.  The configuration is kept in the object. *)
Definition UART (tx rx : string) (baudrate timeout receiver_buffer_size : Z) : Py Value :=
  claim_pin tx Serial ;;
  claim_pin rx Serial ;;
  modify (with_rx []) ;;
  ret (VUart tx rx baudrate timeout receiver_buffer_size).

(** Modelled from the spec: [obj.in_waiting], the bytes available: the
    number of bytes in the receive buffer. *)
Definition in_waiting (obj : Value) : Py nat :=
  match obj with
  | VUart _ _ _ _ _ =>
      s <- get ;;
      modify (emit (EvInWaiting (length (rx_buffer s)))) ;;
      ret (length (rx_buffer s))
  | _ => raise (AttributeError "in_waiting")
  end.

(** Modelled from the spec: [obj.read()], reading the available bytes on a
    channel that never waits: everything in the receive buffer, or [None]
    when it is empty.  The call takes time. *)
Definition read (obj : Value) : Py (option bytes) :=
  match obj with
  | VUart _ _ _ _ _ =>
      s <- get ;;
      let got := match rx_buffer s with [] => None | b => Some b end in
      modify (fun s => tick (with_rx [] (emit (EvRead got) s))) ;;
      ret got
  | _ => raise (AttributeError "read")
  end.

End busio.

Module _bleio.

(** Modelled from the spec: [import _bleio], which raises [ImportError] on
    a board without Bluetooth support. *)
Definition import : Py unit :=
  s <- get ;;
  if has_bleio s then ret tt else raise (ImportError "_bleio").

(** Modelled from the spec: [_bleio.adapter], the existing adapter
    handle. *)
Definition adapter : AdapterHandle := bleio_adapter.

(** Modelled from the spec: [_bleio.Adapter(uart=..., rts=..., cts=...)],
    the adapter factory. *)
Definition Adapter (uart rts cts : Value) : Py AdapterHandle :=
  ret (bleio_Adapter uart rts cts).

End _bleio.

(** ** The class [ESP32] *)

(** Class constants. *)
Definition NOT_IN_USE : Z := 0.
Definition BLUETOOTH : Z := 1.
Definition WIFI : Z := 2.

(** The class dictionary: what attribute lookup on an instance falls back
    to when the instance dictionary has no entry. *)
Definition class_dict : gmap string Value :=
  <["NOT_IN_USE" := VInt NOT_IN_USE]>
  (<["BLUETOOTH" := VInt BLUETOOTH]>
  (<["WIFI" := VInt WIFI]>
  (<["__init__" := VMethod "__init__"]>
  (<["_reset_esp32" := VMethod "_reset_esp32"]>
  (<["start_bluetooth" := VMethod "start_bluetooth"]>
  (<["stop_bluetooth" := VMethod "stop_bluetooth"]>
  (<["start_wifi" := VMethod "start_wifi"]>
  (<["stop_wifi" := VMethod "stop_wifi"]> ∅)))))))).

(** [self.name]: the instance dictionary, then the class, else
    [AttributeError]. *)
Definition getattr (name : string) : Py Value :=
  fun s =>
    match attrs s !! name with
    | Some v => (Returns v, s)
    | None =>
        match class_dict !! name with
        | Some v => (Returns v, s)
        | None => (Raises (AttributeError name), s)
        end
    end.

(** [self.name = v]. *)
Definition setattr (name : string) (v : Value) : Py unit :=
  modify (fun s => with_attrs (<[name := v]> (attrs s)) s).

(** The keyword arguments of the constructor. *)
Record InitArgs := mkInitArgs {
  esp_reset : string;
  esp_gpio0 : string;
  esp_busy : string;
  esp_cs : string;
  esp_tx : string;
  esp_rx : string;
  spi : option SPIBus;
  reset_high : bool;
}.

(** The defaults of the signature: the pins of [board], no SPI bus given,
    reset active low. *)
Definition default_args : InitArgs :=
  mkInitArgs "ESP_RESET" "ESP_GPIO0" "ESP_BUSY" "ESP_CS" "ESP_TX" "ESP_RX" None false.

(** [ESP32.__init__]. *)
Definition __init__ (a : InitArgs) : Py unit :=
  setattr "_mode" (VInt NOT_IN_USE) ;;
  setattr "_spi" (VSpi (match spi a with None => board_SPI | Some bus => bus end)) ;;
  setattr "_reset_high" (VBool (reset_high a)) ;;
  reset <- digitalio.DigitalInOut (esp_reset a) ;;
  setattr "_reset" reset ;;
  reset <- getattr "_reset" ;;
  digitalio.switch_to_output reset (reset_high a) ;;
  gpio0 <- digitalio.DigitalInOut (esp_gpio0 a) ;;
  setattr "_gpio0_and_rts" gpio0 ;;
  busy <- digitalio.DigitalInOut (esp_busy a) ;;
  setattr "_busy_and_cts" busy ;;
  cs <- digitalio.DigitalInOut (esp_cs a) ;;
  setattr "_chip_select" cs ;;
  uart <- busio.UART (esp_tx a) (esp_rx a) 115200 0 512 ;;
  setattr "_uart" uart.

(** [ESP32(...)]: a fresh instance with an empty dictionary, initialised. *)
Definition ESP32 (a : InitArgs) : Py unit :=
  modify (with_attrs ∅) ;;
  __init__ a.

Section Methods.

(** [bytes.decode("utf-8")] of the interpreter: [None] where it raises
    [UnicodeError]. *)
Variable decode : bytes -> option text.

Definition bytes_decode (b : bytes) : Py text :=
  match decode b with
  | Some t => ret t
  | None => raise UnicodeError
  end.

(** The test of the loop in [_reset_esp32]: [self._uart.in_waiting]. *)
Definition uart_in_waiting : Py bool :=
  uart <- getattr "_uart" ;;
  n <- busio.in_waiting uart ;;
  ret (negb (Nat.eqb n 0)).

(** The body of the loop in [_reset_esp32]. *)
Definition read_more (startup_message : bytes) : Py bytes :=
  uart <- getattr "_uart" ;;
  more <- busio.read uart ;;
  match more with
  | Some (b :: bs) => ret (startup_message ++ b :: bs)%list
  | _ => ret startup_message
  end.

(** [ESP32._reset_esp32].  A round of the loop that finds no burst left on
    the wire empties the receiver for good, so the fuel handed to the loop
    is never used up ([_reset_esp32_total] below). *)
Definition _reset_esp32 : Py bytes :=
  reset_high <- getattr "_reset_high" ;;
  reset <- getattr "_reset" ;;
  digitalio.set_value reset (truthy reset_high) ;;
  time.sleep 100 ;;
  reset_high <- getattr "_reset_high" ;;
  reset <- getattr "_reset" ;;
  digitalio.set_value reset (negb (truthy reset_high)) ;;
  time.sleep 1000 ;;
  s <- get ;;
  while (2 + length (wire s)) (fun _ => uart_in_waiting) read_more [].

(** [ESP32.start_bluetooth]. *)
Definition start_bluetooth (debug : bool) : Py AdapterHandle :=
  _bleio.import ;;
  mode <- getattr "_mode" ;;
  if py_eq mode (VInt BLUETOOTH) then ret _bleio.adapter else
  mode <- getattr "_mode" ;;
  if py_eq mode (VInt WIFI) then raise (RuntimeError "ESP32 is in Wifi mode") else
  setattr "_mode" (VInt BLUETOOTH) ;;
  gpio0 <- getattr "_gpio0_and_rts" ;;
  digitalio.switch_to_output gpio0 true ;;
  cs <- getattr "_chip_select" ;;
  digitalio.switch_to_output cs false ;;
  startup_message <- _reset_esp32 ;;
  match startup_message with
  | [] => raise (RuntimeError "ESP32 did not respond with a startup message")
  | _ =>
      (if debug then
         try_except
           (message <- bytes_decode startup_message ;; print message)
           (fun e => bool_decide (e = UnicodeError))
           (raise (RuntimeError "Garbled ESP32 startup message"))
       else ret tt) ;;
      uart <- getattr "_uart" ;;
      rts <- getattr "_gpio0_and_rts" ;;
      cts <- getattr "_cts" ;;
      _bleio.Adapter uart rts cts
  end.

(** [ESP32.stop_bluetooth]. *)
Definition stop_bluetooth : Py unit :=
  mode <- getattr "_mode" ;;
  if py_ne mode (VInt BLUETOOTH) then ret tt else
  _reset_esp32 ;;
  ret tt.

(** [ESP32.start_wifi]. *)
Definition start_wifi : Py unit := raise NotImplementedError.

(** [ESP32.stop_wifi]. *)
Definition stop_wifi : Py unit := raise NotImplementedError.

(** A call of one of the public methods. *)
Inductive Op :=
| StartBluetooth (debug : bool)
| StopBluetooth
| StartWifi
| StopWifi.

(** The state a call leaves behind, whether it returned or raised. *)
Definition call (op : Op) (s : State) : State :=
  match op with
  | StartBluetooth debug => snd (start_bluetooth debug s)
  | StopBluetooth => snd (stop_bluetooth s)
  | StartWifi => snd (start_wifi s)
  | StopWifi => snd (stop_wifi s)
  end.

(** A caller issuing one call after the other. *)
Definition calls (ops : list Op) (s : State) : State := foldl (fun s op => call op s) s ops.

End Methods.

(** ** Vocabulary of the specification *)

(** The errors of the specification are all [RuntimeError]s, told apart by
    their messages; the Wifi methods raise [NotImplementedError]. *)
Definition ModeConflict : Exn := RuntimeError "ESP32 is in Wifi mode".
Definition NoStartupResponse : Exn :=
  RuntimeError "ESP32 did not respond with a startup message".
Definition GarbledStartup : Exn := RuntimeError "Garbled ESP32 startup message".
Definition NotImplemented : Exn := NotImplementedError.

(** The [mode] field. *)
Definition mode (s : State) : option Value := attrs s !! "_mode".

(** The board pin behind a pin attribute, with its direction and level. *)
Definition digital_pin (s : State) (name : string) : option (string * Direction * bool) :=
  match attrs s !! name with
  | Some (VPin pin) =>
      match pins s !! pin with
      | Some (Digital d level) => Some (pin, d, level)
      | _ => None
      end
  | _ => None
  end.

(** The [_uart] attribute holds a serial channel. *)
Definition has_uart (s : State) : bool :=
  match attrs s !! "_uart" with
  | Some (VUart _ _ _ _ _) => true
  | _ => false
  end.

(** The instance is wired up the way [__init__] leaves it: reset is an
    output, gpio0 and chip select are claimed pins, the reset polarity is
    stored and the serial channel is there. *)
Definition wired (s : State) : bool :=
  match digital_pin s "_reset" with Some (_, OUTPUT, _) => true | _ => false end
  && bool_decide (is_Some (digital_pin s "_gpio0_and_rts"))
  && bool_decide (is_Some (digital_pin s "_chip_select"))
  && bool_decide (is_Some (attrs s !! "_reset_high"))
  && has_uart s.

(** The polarity of the reset line: the level that resets the device. *)
Definition reset_active (s : State) : bool :=
  match attrs s !! "_reset_high" with
  | Some v => truthy v
  | None => false
  end.

(** The events of one reset pulse on [pin], the latest first: the line goes
    to the active level for 100 ms, is released, and a second passes. *)
Definition reset_pulse (pin : string) (active : bool) : list Event :=
  [EvSleep 1000; EvSetValue pin (negb active); EvSleep 100; EvSetValue pin active].

(** An event on the serial channel. *)
Definition is_uart_event (e : Event) : bool :=
  match e with
  | EvInWaiting _ | EvRead _ => true
  | _ => false
  end.

(** The bytes an event took from the serial channel. *)
Definition read_of (e : Event) : bytes :=
  match e with
  | EvRead (Some b) => b
  | _ => []
  end.

(** All bytes a trace (latest event first) took from the serial channel, in
    the order they were read. *)
Fixpoint bytes_read (tr : list Event) : bytes :=
  match tr with
  | [] => []
  | e :: earlier => (bytes_read earlier ++ read_of e)%list
  end.

(** The number of [read] calls in a trace. *)
Definition is_read (e : Event) : bool :=
  match e with
  | EvRead _ => true
  | _ => false
  end.
Definition reads (tr : list Event) : nat := length (List.filter is_read tr).

(** Draining by rounds, in the words of the loop: as long as the receiver
    holds bytes, take them all, and let the next burst arrive. *)
Fixpoint drained (w : list bytes) (buffer : bytes) : bytes :=
  match buffer with
  | [] => []
  | _ =>
      (buffer ++ match w with
                 | [] => []
                 | burst :: later => drained later burst
                 end)%list
  end.

(** What the receiver holds when the drain of [_reset_esp32] starts, that
    is after its two sleeps. *)
Definition available_at_drain (s : State) : bytes := rx_buffer (tick (tick s)).

(** The banner [_reset_esp32] returns: what the drain takes, starting from
    what the receiver holds after the two sleeps. *)
Definition startup_banner (s : State) : bytes :=
  drained (wire (tick (tick s))) (available_at_drain s).

(** A computation keeps every state it starts from related to the state it
    ends in. *)
Definition respects (R : State -> State -> Prop) {A} (m : Py A) : Prop :=
  forall s r s', m s = (r, s') -> R s s'.

(** The instance dictionary and the firmware are as before. *)
Definition same_object (s s' : State) : Prop :=
  attrs s' = attrs s /\ has_bleio s' = has_bleio s.

(** Events were only added to the trace. *)
Definition trace_grows (s s' : State) : Prop :=
  exists new, trace s' = (new ++ trace s)%list.

(** No claimed pin was released or turned back into an input. *)
Definition pins_kept (s s' : State) : Prop :=
  forall pin d level, pins s !! pin = Some (Digital d level) ->
    exists d' level', pins s' !! pin = Some (Digital d' level') /\ (d = OUTPUT -> d' = OUTPUT).

(** A computation ends by itself: no loop in it is cut off. *)
Definition total {A} (m : Py A) : Prop := forall s, fst (m s) <> OutOfFuel.

(** What every collaborator guarantees. *)
Definition evolves (s s' : State) : Prop :=
  same_object s s' /\ trace_grows s s' /\ pins_kept s s'.

(** ** Boards to run the class on *)

(** A board on which nothing has been claimed yet, with the transmission
    [w] ahead. *)
Definition fresh_board (w : list bytes) : State := mkState ∅ ∅ [] w true [].

(** The default arguments with the reset polarity chosen. *)
Definition args_reset_high (high : bool) : InitArgs :=
  mkInitArgs "ESP_RESET" "ESP_GPIO0" "ESP_BUSY" "ESP_CS" "ESP_TX" "ESP_RX" None high.

(** A controller just built with the default arguments, the co-processor
    about to send [w]. *)
Definition constructed (w : list bytes) : State :=
  snd (ESP32 default_args (fresh_board w)).

(** A state with the mode field set by hand, the way a test puts the
    controller into a mode no method leads to. *)
Definition in_mode (m : Z) (s : State) : State :=
  with_attrs (<["_mode" := VInt m]> (attrs s)) s.


(** The same board without Bluetooth support in the firmware. *)
Definition without_bleio (s : State) : State :=
  mkState (attrs s) (pins s) (rx_buffer s) (wire s) false (trace s).

(** The messages a trace printed, the latest first. *)
Definition printed (tr : list Event) : list text :=
  omap (fun e => match e with EvPrint message => Some message | _ => None end) tr.

(** What a [start_bluetooth] from idle prints: the decoded banner, when
    debugging is on and there is a banner that decodes. *)
Definition idle_prints (decode : bytes -> option text) (debug : bool) (banner : bytes)
  : list text :=
  match banner, debug, decode banner with
  | _ :: _, true, Some message => [message]
  | _, _, _ => []
  end.

(** The ways a call of [start_bluetooth] can end on an instance built by
    the constructor. *)
Definition start_outcomes : list (Outcome AdapterHandle) :=
  [Returns bleio_adapter; Raises (ImportError "_bleio"); Raises NoStartupResponse;
   Raises GarbledStartup; Raises (AttributeError "_cts")].

(** * Properties *)

(** ** Stepping through a computation *)

Lemma bind_Returns {A B} (m : Py A) (k : A -> Py B) s a s1 :
  m s = (Returns a, s1) -> bind m k s = k a s1.
Proof. unfold bind. intros ->. reflexivity. Qed.

Lemma bind_Raises {A B} (m : Py A) (k : A -> Py B) s e s1 :
  m s = (Raises e, s1) -> bind m k s = (Raises e, s1).
Proof. unfold bind. intros ->. reflexivity. Qed.

Lemma bind_inv {A B} (m : Py A) (k : A -> Py B) s r s' :
  bind m k s = (r, s') ->
  (exists a s1, m s = (Returns a, s1) /\ k a s1 = (r, s')) \/
  (exists e, m s = (Raises e, s') /\ r = Raises e) \/
  (m s = (OutOfFuel, s') /\ r = OutOfFuel).
Proof.
  unfold bind. destruct (m s) as [[a | e |] s1]; intros H.
  - left. eauto.
  - right. left. inversion H. eauto.
  - right. right. inversion H. auto.
Qed.

Lemma getattr_instance name v s :
  attrs s !! name = Some v -> getattr name s = (Returns v, s).
Proof. unfold getattr. intros ->. reflexivity. Qed.

Lemma getattr_state name s r s' : getattr name s = (r, s') -> s' = s.
Proof. unfold getattr. repeat case_match; congruence. Qed.

(** ** Relations that every step of a computation respects *)

Section Respects.

Variable R : State -> State -> Prop.
Hypothesis R_refl : forall s, R s s.
Hypothesis R_trans : forall s1 s2 s3, R s1 s2 -> R s2 s3 -> R s1 s3.

Lemma respects_ret {A} (a : A) : respects R (ret a).
Proof. intros s r s' [= <- <-]. apply R_refl. Qed.

Lemma respects_raise {A} e : respects R (@raise A e).
Proof. intros s r s' [= <- <-]. apply R_refl. Qed.

Lemma respects_get : respects R get.
Proof. intros s r s' [= <- <-]. apply R_refl. Qed.

Lemma respects_getattr name : respects R (getattr name).
Proof. intros s r s' H. apply getattr_state in H as ->. apply R_refl. Qed.

Lemma respects_modify f : (forall s, R s (f s)) -> respects R (modify f).
Proof. intros Hf s r s' [= <- <-]. apply Hf. Qed.

Lemma respects_bind {A B} (m : Py A) (k : A -> Py B) :
  respects R m -> (forall a, respects R (k a)) -> respects R (bind m k).
Proof.
  intros Hm Hk s r s' H.
  apply bind_inv in H as [(a & s1 & H1 & H2) | [(e & H1 & _) | [H1 _]]].
  - eapply R_trans; [eapply Hm | eapply Hk]; eassumption.
  - eapply Hm; eassumption.
  - eapply Hm; eassumption.
Qed.

Lemma respects_try_except {A} (body handler : Py A) caught :
  respects R body -> respects R handler -> respects R (try_except body caught handler).
Proof.
  intros Hb Hh s r s' H. unfold try_except in H.
  destruct (body s) as [[a | e |] s1] eqn:E.
  - inversion H; subst. eapply Hb; eassumption.
  - destruct (caught e).
    + eapply R_trans; [eapply Hb | eapply Hh]; eassumption.
    + inversion H; subst. eapply Hb; eassumption.
  - inversion H; subst. eapply Hb; eassumption.
Qed.

Lemma respects_while {L} (cond : L -> Py bool) (body : L -> Py L) :
  (forall l, respects R (cond l)) -> (forall l, respects R (body l)) ->
  forall fuel l, respects R (while fuel cond body l).
Proof.
  intros Hc Hb. induction fuel as [| fuel IH]; intros l; simpl.
  - intros s r s' [= <- <-]. apply R_refl.
  - apply respects_bind; [apply Hc |]. intros [|].
    + apply respects_bind; [apply Hb | apply IH].
    + apply respects_ret.
Qed.

End Respects.

(** ** What the collaborators leave alone *)

(** Read a field of an updated state. *)
Ltac fields :=
  cbn [attrs pins rx_buffer wire has_bleio trace
       with_attrs with_pins with_rx with_wire emit] in *.

Lemma evolves_refl s : evolves s s.
Proof.
  repeat split.
  - exists []. reflexivity.
  - intros pin d level H. eauto.
Qed.

Lemma evolves_trans s1 s2 s3 : evolves s1 s2 -> evolves s2 s3 -> evolves s1 s3.
Proof.
  intros ([Ha Hb] & [n1 Ht] & Hp) ([Ha' Hb'] & [n2 Ht'] & Hp'). repeat split.
  - congruence.
  - congruence.
  - exists (n2 ++ n1)%list. rewrite Ht', Ht. apply app_assoc.
  - intros pin d level H.
    destruct (Hp _ _ _ H) as (d1 & l1 & H1 & Hd1).
    destruct (Hp' _ _ _ H1) as (d2 & l2 & H2 & Hd2).
    exists d2, l2. split; [assumption | auto].
Qed.

Lemma tick_evolves s : evolves s (tick s).
Proof.
  unfold tick. destruct (wire s); [apply evolves_refl |].
  repeat split; fields.
  - exists []. reflexivity.
  - intros pin d level H. fields. eauto.
Qed.

Lemma emit_evolves e s : evolves s (emit e s).
Proof.
  repeat split; fields.
  - exists [e]. reflexivity.
  - intros pin d level H. fields. eauto.
Qed.

Lemma with_rx_evolves b s : evolves s (with_rx b s).
Proof.
  repeat split; fields.
  - exists []. reflexivity.
  - intros pin d level H. fields. eauto.
Qed.

Lemma drive_evolves pin level s d0 l0 :
  pins s !! pin = Some (Digital d0 l0) ->
  evolves s (with_pins (<[pin := Digital OUTPUT level]> (pins s)) s).
Proof.
  intros Hpin. repeat split; fields.
  - exists []. reflexivity.
  - intros q d l H. fields. destruct (decide (pin = q)) as [-> | Hne].
    + rewrite lookup_insert_eq. eauto.
    + rewrite lookup_insert_ne by assumption. eauto.
Qed.

Create HintDb evolves.

#[local] Hint Resolve evolves_refl evolves_trans tick_evolves emit_evolves
  with_rx_evolves : evolves.

Ltac evolves_step :=
  lazymatch goal with
  | |- respects _ (bind _ _) => apply respects_bind; [exact evolves_trans | | intros ? ]
  | |- respects _ (ret _) => apply respects_ret; exact evolves_refl
  | |- respects _ (raise _) => apply respects_raise; exact evolves_refl
  | |- respects _ get => apply respects_get; exact evolves_refl
  | |- respects _ (getattr _) => apply respects_getattr; exact evolves_refl
  | |- respects _ (modify _) => apply respects_modify; intros ?
  end.

Lemma sleep_evolves ms : respects evolves (time.sleep ms).
Proof.
  unfold time.sleep. evolves_step.
  eapply evolves_trans; [apply emit_evolves | apply tick_evolves].
Qed.

Lemma print_evolves message : respects evolves (print message).
Proof. unfold print. evolves_step. apply emit_evolves. Qed.

Lemma switch_to_output_evolves obj level :
  respects evolves (digitalio.switch_to_output obj level).
Proof.
  unfold digitalio.switch_to_output.
  destruct obj; try (apply respects_raise; exact evolves_refl).
  intros s r s' H. unfold bind, get in H.
  destruct (pins s !! pin) as [[d l |] |] eqn:Hpin; inversion H; subst;
    try apply evolves_refl.
  eapply evolves_trans; [eapply drive_evolves; eassumption | apply emit_evolves].
Qed.

Lemma set_value_evolves obj level :
  respects evolves (digitalio.set_value obj level).
Proof.
  unfold digitalio.set_value.
  destruct obj; try (apply respects_raise; exact evolves_refl).
  intros s r s' H. unfold bind, get in H.
  destruct (pins s !! pin) as [[[|] l |] |] eqn:Hpin; inversion H; subst;
    try apply evolves_refl.
  eapply evolves_trans; [eapply drive_evolves; eassumption | apply emit_evolves].
Qed.

Lemma in_waiting_evolves obj : respects evolves (busio.in_waiting obj).
Proof.
  unfold busio.in_waiting. destruct obj; repeat evolves_step.
  apply emit_evolves.
Qed.

Lemma read_evolves obj : respects evolves (busio.read obj).
Proof.
  unfold busio.read. destruct obj; repeat evolves_step.
  eauto 6 with evolves.
Qed.

Lemma _reset_esp32_evolves : respects evolves _reset_esp32.
Proof.
  unfold _reset_esp32.
  repeat first
    [ apply set_value_evolves | apply sleep_evolves | evolves_step ].
  apply (respects_while evolves evolves_refl evolves_trans); intros ?.
  - unfold uart_in_waiting. repeat first [ apply in_waiting_evolves | evolves_step ].
  - unfold read_more. repeat first [ apply read_evolves | evolves_step ].
    repeat case_match; evolves_step.
Qed.

(** Every statement of the methods but the assignment of the mode respects
    [evolves]; this goes through a sequence of them. *)
Ltac evolves_all :=
  unfold bytes_decode, _bleio.Adapter;
  repeat first
    [ apply switch_to_output_evolves | apply _reset_esp32_evolves
    | apply print_evolves
    | apply respects_try_except; [exact evolves_trans | |]
    | evolves_step
    | match goal with
      | |- respects _ (if ?x then _ else _) => destruct x
      | |- respects _ (match ?x with _ => _ end) => destruct x
      end ].

(** ** The drain loop of [_reset_esp32] *)

Lemma has_uart_attr s :
  has_uart s = true ->
  exists tx rx b t n, attrs s !! "_uart" = Some (VUart tx rx b t n).
Proof.
  unfold has_uart. destruct (attrs s !! "_uart") as [[] |]; try discriminate.
  eauto 6.
Qed.

Lemma uart_in_waiting_eq s :
  has_uart s = true ->
  uart_in_waiting s =
    (Returns (negb (Nat.eqb (length (rx_buffer s)) 0)),
     emit (EvInWaiting (length (rx_buffer s))) s).
Proof.
  intros (tx & rx & b & t & n & Hu)%has_uart_attr. unfold uart_in_waiting.
  rewrite (bind_Returns _ _ _ _ _ (getattr_instance _ _ _ Hu)). reflexivity.
Qed.

Lemma read_more_eq startup_message s :
  has_uart s = true ->
  read_more startup_message s =
    (Returns (startup_message ++ rx_buffer s)%list,
     tick (with_rx [] (emit (EvRead (match rx_buffer s with
                                     | [] => None
                                     | b => Some b
                                     end)) s))).
Proof.
  intros (tx & rx & b & t & n & Hu)%has_uart_attr. unfold read_more.
  rewrite (bind_Returns _ _ _ _ _ (getattr_instance _ _ _ Hu)).
  unfold busio.read, bind, get, modify, ret.
  destruct (rx_buffer s); [rewrite app_nil_r |]; reflexivity.
Qed.

Lemma has_uart_evolves s s' : evolves s s' -> has_uart s' = has_uart s.
Proof. intros ([Ha _] & _). unfold has_uart. rewrite Ha. reflexivity. Qed.

Lemma bytes_read_app new old :
  bytes_read (new ++ old) = (bytes_read old ++ bytes_read new)%list.
Proof.
  induction new as [| e new IH]; cbn [app bytes_read].
  - symmetry. apply app_nil_r.
  - rewrite IH. symmetry. apply app_assoc.
Qed.

Lemma reads_app new old : reads (new ++ old) = (reads new + reads old)%nat.
Proof. unfold reads. rewrite List.filter_app. apply length_app. Qed.

(** With a serial channel in place the loop takes what [drained] says,
    leaves the receiver empty, and touches nothing but the channel. *)
Lemma drain_loop w : forall s acc fuel,
  has_uart s = true -> wire s = w -> (2 + length w <= fuel)%nat ->
  exists s' new,
    while fuel (fun _ => uart_in_waiting) read_more acc s =
      (Returns (acc ++ drained w (rx_buffer s))%list, s') /\
    rx_buffer s' = [] /\
    trace s' = (new ++ trace s)%list /\
    bytes_read new = drained w (rx_buffer s) /\
    forallb is_uart_event new = true /\
    (reads new <= 1 + length w)%nat /\
    attrs s' = attrs s /\ pins s' = pins s /\ has_bleio s' = has_bleio s /\
    head new = Some (EvInWaiting 0).
Proof.
  induction w as [| burst later IH]; intros s acc fuel Hu Hw Hfuel;
    (destruct fuel as [| fuel]; [simpl in Hfuel; lia |]);
    cbn [while]; rewrite (bind_Returns _ _ _ _ _ (uart_in_waiting_eq _ Hu)).
  - destruct (rx_buffer s) as [| b bs] eqn:Hrx.
    + exists (emit (EvInWaiting 0) s), [EvInWaiting 0%nat]. cbn.
      rewrite app_nil_r. repeat split; auto. 
    + cbn [length Nat.eqb negb].
      assert (Hu1 : has_uart (emit (EvInWaiting (S (length bs))) s) = true) by exact Hu.
      rewrite (bind_Returns _ _ _ _ _ (read_more_eq _ _ Hu1)). fields.
      rewrite Hrx. unfold tick at 1. fields. rewrite Hw.
      destruct fuel as [| fuel]; [simpl in Hfuel; lia |].
      cbn [while].
      match goal with |- context [bind uart_in_waiting _ ?st] =>
        assert (Hu2 : has_uart st = true) by exact Hu;
        rewrite (bind_Returns _ _ _ _ _ (uart_in_waiting_eq _ Hu2))
      end.
      fields. cbn [length Nat.eqb negb].
      eexists _, [EvInWaiting 0%nat; EvRead (Some (b :: bs)); EvInWaiting (S (length bs))].
      cbn. rewrite app_nil_r. repeat split; auto.
  - destruct (rx_buffer s) as [| b bs] eqn:Hrx.
    + exists (emit (EvInWaiting 0) s), [EvInWaiting 0%nat]. cbn.
      rewrite app_nil_r. repeat split; auto. lia.
    + cbn [length Nat.eqb negb].
      assert (Hu1 : has_uart (emit (EvInWaiting (S (length bs))) s) = true) by exact Hu.
      rewrite (bind_Returns _ _ _ _ _ (read_more_eq _ _ Hu1)). fields.
      rewrite Hrx. unfold tick at 1. fields. rewrite Hw.
      match goal with |- context [while fuel _ _ ?a ?st] =>
        destruct (IH st a fuel)
          as (s' & new & Hrun & Hempty & Htrace & Hread & Hev & Hn & Ha & Hp & Hb & Hlast);
          [exact Hu | reflexivity | simpl in Hfuel |- *; lia |]
      end.
      exists s', (new ++ [EvRead (Some (b :: bs)); EvInWaiting (S (length bs))])%list.
      rewrite Hrun. fields. cbn [app] in *.
      repeat split.
      * rewrite <- app_assoc. reflexivity.
      * assumption.
      * rewrite Htrace, <- app_assoc. reflexivity.
      * rewrite bytes_read_app, Hread. reflexivity.
      * rewrite forallb_app, Hev. reflexivity.
      * rewrite reads_app. cbn. cbn in Hn. lia.
      * assumption.
      * assumption.
      * assumption.
      * destruct new; [discriminate | exact Hlast].
Qed.

Lemma uart_in_waiting_no_uart s :
  has_uart s = false -> exists e, uart_in_waiting s = (Raises e, s).
Proof.
  unfold has_uart, uart_in_waiting, bind, getattr. intros H.
  destruct (attrs s !! "_uart") as [[] |]; try discriminate; cbn; eauto.
Qed.

(** The fuel [_reset_esp32] hands to its loop is enough in every state. *)
Lemma drain_loop_total s acc fuel :
  (2 + length (wire s) <= fuel)%nat ->
  fst (while fuel (fun _ => uart_in_waiting) read_more acc s) <> OutOfFuel.
Proof.
  intros Hfuel. destruct (has_uart s) eqn:Hu.
  - destruct (drain_loop (wire s) s acc fuel Hu eq_refl Hfuel) as (s' & new & -> & _).
    discriminate.
  - destruct fuel as [| fuel]; [simpl in Hfuel; lia |].
    destruct (uart_in_waiting_no_uart s Hu) as [e He]. cbn [while].
    rewrite (bind_Raises _ _ _ _ _ He). discriminate.
Qed.

(** ** Computations that end *)

Lemma total_ret {A} (a : A) : total (ret a).
Proof. intros s. discriminate. Qed.

Lemma total_raise {A} e : total (@raise A e).
Proof. intros s. discriminate. Qed.

Lemma total_modify f : total (modify f).
Proof. intros s. discriminate. Qed.

Lemma total_getattr name : total (getattr name).
Proof. intros s. unfold getattr. repeat case_match; discriminate. Qed.

Lemma total_bind {A B} (m : Py A) (k : A -> Py B) :
  total m -> (forall a, total (k a)) -> total (bind m k).
Proof.
  intros Hm Hk s. unfold bind. specialize (Hm s).
  destruct (m s) as [[a | e |] s1]; cbn in *; [apply Hk | discriminate | congruence].
Qed.

Lemma total_get_bind {A} (k : State -> Py A) :
  (forall s, fst (k s s) <> OutOfFuel) -> total (bind get k).
Proof. intros Hk s. apply Hk. Qed.

Lemma total_try_except {A} (body handler : Py A) caught :
  total body -> total handler -> total (try_except body caught handler).
Proof.
  intros Hb Hh s. unfold try_except. specialize (Hb s).
  destruct (body s) as [[a | e |] s1]; cbn in *; try congruence.
  destruct (caught e); [apply Hh | discriminate].
Qed.

Ltac total_step :=
  lazymatch goal with
  | |- total (bind get _) => apply total_get_bind; intros ?
  | |- total (bind _ _) => apply total_bind; [| intros ? ]
  | |- total (ret _) => apply total_ret
  | |- total (raise _) => apply total_raise
  | |- total (getattr _) => apply total_getattr
  | |- total (modify _) => apply total_modify
  | |- total (if ?x then _ else _) => destruct x
  | |- total (match ?x with _ => _ end) => destruct x
  end.

Lemma total_import : total _bleio.import.
Proof. intros s. unfold _bleio.import, bind, get. case_match; discriminate. Qed.

Lemma total_switch_to_output obj level : total (digitalio.switch_to_output obj level).
Proof.
  intros s. unfold digitalio.switch_to_output, bind, get, modify, raise.
  repeat case_match; discriminate.
Qed.

Lemma total_set_value obj level : total (digitalio.set_value obj level).
Proof.
  intros s. unfold digitalio.set_value, bind, get, modify, raise.
  repeat case_match; discriminate.
Qed.

Lemma total_sleep ms : total (time.sleep ms).
Proof. apply total_modify. Qed.

(** [_reset_esp32] ends in every state: with the banner, or with the
    exception of a collaborator. *)
Lemma _reset_esp32_total : total _reset_esp32.
Proof.
  unfold _reset_esp32.
  repeat first
    [ apply total_set_value | apply total_sleep | total_step ].
  apply drain_loop_total. reflexivity.
Qed.

Lemma stop_bluetooth_total : total stop_bluetooth.
Proof.
  unfold stop_bluetooth.
  repeat first [ apply _reset_esp32_total | total_step ].
Qed.

Lemma start_bluetooth_total decode debug : total (start_bluetooth decode debug).
Proof.
  unfold start_bluetooth, _bleio.Adapter, bytes_decode, print, setattr.
  repeat first
    [ apply total_import | apply _reset_esp32_total | apply total_switch_to_output
    | apply total_try_except | total_step ].
Qed.

(** ** The reset sequence on a wired instance *)

Lemma tick_emit e s : tick (emit e s) = emit e (tick s).
Proof. unfold tick. fields. destruct (wire s); reflexivity. Qed.

Lemma tick_with_pins p s : tick (with_pins p s) = with_pins p (tick s).
Proof. unfold tick. fields. destruct (wire s); reflexivity. Qed.

Lemma tick_with_attrs a s : tick (with_attrs a s) = with_attrs a (tick s).
Proof. unfold tick. fields. destruct (wire s); reflexivity. Qed.

Lemma attrs_tick s : attrs (tick s) = attrs s.
Proof. unfold tick. destruct (wire s); reflexivity. Qed.

Lemma pins_tick s : pins (tick s) = pins s.
Proof. unfold tick. destruct (wire s); reflexivity. Qed.

Lemma trace_tick s : trace (tick s) = trace s.
Proof. unfold tick. destruct (wire s); reflexivity. Qed.

Lemma set_value_eq pin level s l0 :
  pins s !! pin = Some (Digital OUTPUT l0) ->
  digitalio.set_value (VPin pin) level s =
    (Returns tt,
     emit (EvSetValue pin level) (with_pins (<[pin := Digital OUTPUT level]> (pins s)) s)).
Proof. intros H. unfold digitalio.set_value, bind, get. rewrite H. reflexivity. Qed.

Lemma switch_to_output_eq pin level s d0 l0 :
  pins s !! pin = Some (Digital d0 l0) ->
  digitalio.switch_to_output (VPin pin) level s =
    (Returns tt,
     emit (EvSwitchToOutput pin level)
       (with_pins (<[pin := Digital OUTPUT level]> (pins s)) s)).
Proof. intros H. unfold digitalio.switch_to_output, bind, get. rewrite H. reflexivity. Qed.

Lemma sleep_eq ms s : time.sleep ms s = (Returns tt, tick (emit (EvSleep ms) s)).
Proof. reflexivity. Qed.

(** Run the next statement of a method whose outcome is known. *)
Ltac run_step :=
  erewrite bind_Returns by
    first
      [ apply getattr_instance; fields; rewrite ?attrs_tick; eassumption
      | eapply set_value_eq; fields; rewrite ?pins_tick;
        first [ eassumption | apply lookup_insert_eq ]
      | eapply switch_to_output_eq; fields; rewrite ?pins_tick;
        first [ eassumption | apply lookup_insert_eq ]
      | apply sleep_eq ].

Lemma digital_pin_inv s name pin d level :
  digital_pin s name = Some (pin, d, level) ->
  attrs s !! name = Some (VPin pin) /\ pins s !! pin = Some (Digital d level).
Proof.
  unfold digital_pin. destruct (attrs s !! name) as [v |]; [| discriminate].
  destruct v as [| | | p | | |]; try discriminate.
  destruct (pins s !! p) as [[d' l' |] |] eqn:Hp; try discriminate.
  intros [= -> -> ->]. split; [reflexivity | exact Hp].
Qed.

Lemma wired_inv s :
  wired s = true ->
  (exists pin level, digital_pin s "_reset" = Some (pin, OUTPUT, level)) /\
  is_Some (digital_pin s "_gpio0_and_rts") /\
  is_Some (digital_pin s "_chip_select") /\
  is_Some (attrs s !! "_reset_high") /\
  has_uart s = true.
Proof.
  unfold wired. rewrite !andb_true_iff, !bool_decide_eq_true.
  intros ((((Hr & Hg) & Hc) & Hh) & Hu). repeat split; try assumption.
  destruct (digital_pin s "_reset") as [[[pin []] level] |]; try discriminate.
  eauto.
Qed.

(** On a wired instance [_reset_esp32] pulses the reset line, returns what
    the drain took from the serial channel and leaves the line released. *)
Lemma _reset_esp32_wired s pin level :
  digital_pin s "_reset" = Some (pin, OUTPUT, level) ->
  is_Some (attrs s !! "_reset_high") ->
  has_uart s = true ->
  exists s' new,
    _reset_esp32 s = (Returns (startup_banner s), s') /\
    trace s' = (new ++ reset_pulse pin (reset_active s) ++ trace s)%list /\
    bytes_read new = startup_banner s /\
    forallb is_uart_event new = true /\
    (reads new <= 1 + length (wire (tick (tick s))))%nat /\
    rx_buffer s' = [] /\
    pins s' = <[pin := Digital OUTPUT (negb (reset_active s))]> (pins s) /\
    head new = Some (EvInWaiting 0).
Proof.
  intros [Hreset Hpin]%digital_pin_inv [v Hv] Hu.
  unfold _reset_esp32, reset_active, startup_banner. rewrite Hv.
  do 8 run_step. unfold bind at 1, get at 1.
  repeat first [ rewrite tick_emit | rewrite tick_with_pins | rewrite pins_tick ].
  fields.
  match goal with |- context [while ?fuel _ _ _ ?st] =>
    destruct (drain_loop (wire st) st [] fuel)
      as (s' & new & Hrun & Hempty & Htrace & Hread & Hev & Hn & Ha & Hp & Hb & Hlast);
      [unfold has_uart in *; fields; rewrite !attrs_tick; exact Hu
      | reflexivity | fields; lia |]
  end.
  fields. rewrite !trace_tick in Htrace.
  exists s', new. rewrite Hrun, Htrace, Hp.
  unfold available_at_drain. repeat split; try assumption.
  apply insert_insert_eq.
Qed.

(** ** Wiring is kept *)

Lemma digital_pin_evolves s s' name pin d level :
  evolves s s' -> digital_pin s name = Some (pin, d, level) ->
  exists d' level',
    digital_pin s' name = Some (pin, d', level') /\ (d = OUTPUT -> d' = OUTPUT).
Proof.
  intros ([Ha _] & _ & Hp) [Hattr Hpin]%digital_pin_inv.
  destruct (Hp _ _ _ Hpin) as (d' & level' & Hpin' & Hd).
  exists d', level'. split; [| exact Hd].
  unfold digital_pin. rewrite Ha, Hattr, Hpin'. reflexivity.
Qed.

Lemma wired_evolves s s' : evolves s s' -> wired s = true -> wired s' = true.
Proof.
  intros Hev ((pin & level & Hr) & [[[g dg] lg] Hg] & [[[c dc] lc] Hc] & Hh & Hu)%wired_inv.
  destruct (digital_pin_evolves _ _ _ _ _ _ Hev Hr) as (d' & l' & Hr' & Hd).
  destruct (digital_pin_evolves _ _ _ _ _ _ Hev Hg) as (? & ? & Hg' & _).
  destruct (digital_pin_evolves _ _ _ _ _ _ Hev Hc) as (? & ? & Hc' & _).
  rewrite (Hd eq_refl) in Hr'.
  unfold wired. rewrite Hr', Hg', Hc', (has_uart_evolves _ _ Hev), Hu.
  destruct Hev as ([Ha _] & _). rewrite Ha.
  rewrite !bool_decide_eq_true_2 by eauto. reflexivity.
Qed.

Lemma digital_pin_set_mode s v name :
  name <> "_mode" ->
  digital_pin (with_attrs (<["_mode" := v]> (attrs s)) s) name = digital_pin s name.
Proof.
  intros Hne. unfold digital_pin. fields.
  rewrite lookup_insert_ne by congruence. reflexivity.
Qed.

Lemma wired_set_mode s v :
  wired s = true -> wired (with_attrs (<["_mode" := v]> (attrs s)) s) = true.
Proof.
  unfold wired, digital_pin, has_uart. fields.
  rewrite !lookup_insert_ne by discriminate. auto.
Qed.

(** ** Mode arbitration *)

Lemma import_eq s : has_bleio s = true -> _bleio.import s = (Returns tt, s).
Proof. intros H. unfold _bleio.import, bind, get. rewrite H. reflexivity. Qed.

Lemma import_state s r s' : _bleio.import s = (r, s') -> s' = s.
Proof. unfold _bleio.import, bind, get. case_match; intros [= _ <-]; reflexivity. Qed.

Lemma getattr_mode s v : mode s = Some v -> getattr "_mode" s = (Returns v, s).
Proof. apply getattr_instance. Qed.

Section Arbitration.

Variable decode : bytes -> option text.

(** In Bluetooth mode [start_bluetooth] is over after the first test. *)
Lemma start_bluetooth_in_bluetooth debug s :
  has_bleio s = true -> mode s = Some (VInt BLUETOOTH) ->
  start_bluetooth decode debug s = (Returns bleio_adapter, s).
Proof.
  intros Hb Hm. unfold start_bluetooth.
  rewrite (bind_Returns _ _ _ _ _ (import_eq _ Hb)).
  rewrite (bind_Returns _ _ _ _ _ (getattr_mode _ _ Hm)).
  reflexivity.
Qed.

(** [stop_bluetooth] assigns no attribute. *)
Lemma stop_bluetooth_same_object s : same_object s (snd (stop_bluetooth s)).
Proof.
  destruct (stop_bluetooth s) as [r s'] eqn:H. cbn [snd].
  assert (Hev : respects evolves stop_bluetooth)
    by (unfold stop_bluetooth; evolves_all).
  apply (Hev _ _ _ H).
Qed.

(** C3. In every state whose mode is Wifi, [start_bluetooth] raises the
    mode conflict and the state it leaves is the state it found: no pin was
    written, the mode was not changed and no reset was run. *)
Theorem start_bluetooth_wifi_conflict debug s :
  has_bleio s = true -> mode s = Some (VInt WIFI) ->
  start_bluetooth decode debug s = (Raises ModeConflict, s).
Proof.
  intros Hb Hm. unfold start_bluetooth.
  rewrite (bind_Returns _ _ _ _ _ (import_eq _ Hb)).
  rewrite (bind_Returns _ _ _ _ _ (getattr_mode _ _ Hm)).
  change (py_eq (VInt WIFI) (VInt BLUETOOTH)) with false. cbv iota.
  rewrite (bind_Returns _ _ _ _ _ (getattr_mode _ _ Hm)).
  reflexivity.
Qed.

(** In Bluetooth mode [stop_bluetooth] is [_reset_esp32] with the banner
    thrown away. *)
Lemma stop_bluetooth_in_bluetooth s :
  mode s = Some (VInt BLUETOOTH) ->
  stop_bluetooth s = (_reset_esp32 ;; ret tt) s.
Proof.
  intros Hm. unfold stop_bluetooth.
  rewrite (bind_Returns _ _ _ _ _ (getattr_mode _ _ Hm)). reflexivity.
Qed.

(** From idle, on a wired instance, [start_bluetooth] gets as far as the
    banner, and the board is then in a known state: gpio0 driven high, chip
    select low, the reset line released, the receiver empty. *)
Lemma start_bluetooth_idle_board debug s :
  has_bleio s = true -> mode s = Some (VInt NOT_IN_USE) -> wired s = true ->
  exists gpio0 cs rst s' new,
    start_bluetooth decode debug s =
      (match startup_banner s with
       | [] => raise NoStartupResponse
       | _ =>
           (if debug then
              try_except
                (message <- bytes_decode decode (startup_banner s) ;; print message)
                (fun e => bool_decide (e = UnicodeError))
                (raise GarbledStartup)
            else ret tt) ;;
           uart <- getattr "_uart" ;;
           rts <- getattr "_gpio0_and_rts" ;;
           cts <- getattr "_cts" ;;
           _bleio.Adapter uart rts cts
       end) s' /\
    attrs s' = <["_mode" := VInt BLUETOOTH]> (attrs s) /\
    has_bleio s' = true /\
    trace s' =
      (new ++ reset_pulse rst (reset_active s) ++
       [EvSwitchToOutput cs false; EvSwitchToOutput gpio0 true] ++ trace s)%list /\
    bytes_read new = startup_banner s /\
    forallb is_uart_event new = true /\
    attrs s !! "_gpio0_and_rts" = Some (VPin gpio0) /\
    attrs s !! "_chip_select" = Some (VPin cs) /\
    attrs s !! "_reset" = Some (VPin rst) /\
    pins s' =
      <[rst := Digital OUTPUT (negb (reset_active s))]>
      (<[cs := Digital OUTPUT false]>
      (<[gpio0 := Digital OUTPUT true]> (pins s))) /\
    rx_buffer s' = [].
Proof.
  intros Hb Hm Hw.
  pose proof Hw as ((rst & lr & Hr) & [[[gpio0 dg] lg] Hg] & [[[cs dc] lc] Hc] & Hh & Hu)%wired_inv.
  unfold start_bluetooth.
  rewrite (bind_Returns _ _ _ _ _ (import_eq _ Hb)).
  rewrite (bind_Returns _ _ _ _ _ (getattr_mode _ _ Hm)).
  change (py_eq (VInt NOT_IN_USE) (VInt BLUETOOTH)) with false. cbv iota.
  rewrite (bind_Returns _ _ _ _ _ (getattr_mode _ _ Hm)).
  change (py_eq (VInt NOT_IN_USE) (VInt WIFI)) with false. cbv iota.
  (* self._mode = ESP32.BLUETOOTH *)
  set (s1 := with_attrs (<["_mode" := VInt BLUETOOTH]> (attrs s)) s).
  assert (H1 : setattr "_mode" (VInt BLUETOOTH) s = (Returns tt, s1)) by reflexivity.
  rewrite (bind_Returns _ _ _ _ _ H1).
  assert (Hw1 : wired s1 = true) by apply wired_set_mode, Hw.
  assert (Hg1 : digital_pin s1 "_gpio0_and_rts" = Some (gpio0, dg, lg))
    by (unfold s1; rewrite digital_pin_set_mode by discriminate; exact Hg).
  assert (Hc1 : digital_pin s1 "_chip_select" = Some (cs, dc, lc))
    by (unfold s1; rewrite digital_pin_set_mode by discriminate; exact Hc).
  assert (Hr1 : digital_pin s1 "_reset" = Some (rst, OUTPUT, lr))
    by (unfold s1; rewrite digital_pin_set_mode by discriminate; exact Hr).
  (* self._gpio0_and_rts.switch_to_output(True) *)
  destruct (digital_pin_inv _ _ _ _ _ Hg1) as [Hga Hgp].
  rewrite (bind_Returns _ _ _ _ _ (getattr_instance _ _ _ Hga)).
  rewrite (bind_Returns _ _ _ _ _ (switch_to_output_eq _ true _ _ _ Hgp)).
  match goal with |- context [bind (getattr "_chip_select") _ ?st] => set (s2 := st) end.
  assert (Hev2 : evolves s1 s2)
    by exact (switch_to_output_evolves _ _ _ _ _ (switch_to_output_eq _ true _ _ _ Hgp)).
  destruct (digital_pin_evolves _ _ _ _ _ _ Hev2 Hc1) as (dc2 & lc2 & Hc2 & _).
  (* self._chip_select.switch_to_output(False) *)
  destruct (digital_pin_inv _ _ _ _ _ Hc2) as [Hca Hcp].
  rewrite (bind_Returns _ _ _ _ _ (getattr_instance _ _ _ Hca)).
  rewrite (bind_Returns _ _ _ _ _ (switch_to_output_eq _ false _ _ _ Hcp)).
  match goal with |- context [bind _reset_esp32 _ ?st] => set (s3 := st) end.
  assert (Hev3 : evolves s1 s3).
  { eapply evolves_trans; [exact Hev2 |].
    exact (switch_to_output_evolves _ _ _ _ _ (switch_to_output_eq _ false _ _ _ Hcp)). }
  destruct (digital_pin_evolves _ _ _ _ _ _ Hev3 Hr1) as (dr3 & lr3 & Hr3 & Hout).
  rewrite (Hout eq_refl) in Hr3.
  (* self._reset_esp32() *)
  destruct (_reset_esp32_wired s3 rst lr3 Hr3)
    as (s4 & new & Hrun & Htrace & Hread & Huart & _ & Hempty & Hpins & _).
  { destruct Hh as [v Hv]. exists v. unfold s3, s2, s1. fields.
    rewrite lookup_insert_ne by discriminate. exact Hv. }
  { rewrite (has_uart_evolves _ _ Hev3).
    apply wired_inv in Hw1. tauto. }
  rewrite (bind_Returns _ _ _ _ _ Hrun).
  assert (Hbanner : startup_banner s3 = startup_banner s).
  { unfold startup_banner, available_at_drain, s3, s2, s1.
    repeat first [ rewrite tick_emit | rewrite tick_with_pins | rewrite tick_with_attrs ].
    reflexivity. }
  assert (Hactive : reset_active s3 = reset_active s).
  { unfold reset_active, s3, s2, s1. fields.
    rewrite lookup_insert_ne by discriminate. reflexivity. }
  destruct (_reset_esp32_evolves _ _ _ Hrun) as ([Ha4 Hb4] & _ & _).
  rewrite Hbanner in *. rewrite Hactive in Htrace, Hpins.
  exists gpio0, cs, rst, s4, new. repeat split; try assumption.
  - rewrite Hb4. exact Hb.
  - apply (digital_pin_inv _ _ _ _ _ Hg).
  - apply (digital_pin_inv _ _ _ _ _ Hc).
  - apply (digital_pin_inv _ _ _ _ _ Hr).
Qed.

(** From idle, on a wired instance, [start_bluetooth] gets as far as the
    banner: the mode is assigned, gpio0 is driven high and chip select low,
    the reset sequence runs, and what is left of the method goes on from
    there with the banner the drain took. *)
Lemma start_bluetooth_idle debug s :
  has_bleio s = true -> mode s = Some (VInt NOT_IN_USE) -> wired s = true ->
  exists gpio0 cs rst s' new,
    start_bluetooth decode debug s =
      (match startup_banner s with
       | [] => raise NoStartupResponse
       | _ =>
           (if debug then
              try_except
                (message <- bytes_decode decode (startup_banner s) ;; print message)
                (fun e => bool_decide (e = UnicodeError))
                (raise GarbledStartup)
            else ret tt) ;;
           uart <- getattr "_uart" ;;
           rts <- getattr "_gpio0_and_rts" ;;
           cts <- getattr "_cts" ;;
           _bleio.Adapter uart rts cts
       end) s' /\
    attrs s' = <["_mode" := VInt BLUETOOTH]> (attrs s) /\
    has_bleio s' = true /\
    trace s' =
      (new ++ reset_pulse rst (reset_active s) ++
       [EvSwitchToOutput cs false; EvSwitchToOutput gpio0 true] ++ trace s)%list /\
    bytes_read new = startup_banner s /\
    forallb is_uart_event new = true.
Proof.
  intros Hb Hm Hw.
  destruct (start_bluetooth_idle_board debug s Hb Hm Hw)
    as (gpio0 & cs & rst & s' & new & Hrun & Ha & Hb' & Htrace & Hread & Hev & _).
  exists gpio0, cs, rst, s', new. auto 6.
Qed.


(** The whole call from idle on a wired instance, read off the banner: no
    banner, a banner that does not decode when debugging, or else the three
    attribute lookups for the adapter, of which [_cts] decides. *)
Lemma start_bluetooth_idle_outcome debug s :
  has_bleio s = true -> mode s = Some (VInt NOT_IN_USE) -> wired s = true ->
  exists uart rts s' new,
    attrs s !! "_uart" = Some uart /\
    attrs s !! "_gpio0_and_rts" = Some rts /\
    start_bluetooth decode debug s =
      (match startup_banner s with
       | [] => Raises NoStartupResponse
       | _ =>
           match debug, decode (startup_banner s) with
           | true, None => Raises GarbledStartup
           | _, _ =>
               match attrs s !! "_cts" with
               | Some cts => Returns (bleio_Adapter uart rts cts)
               | None => Raises (AttributeError "_cts")
               end
           end
       end, s') /\
    mode s' = Some (VInt BLUETOOTH) /\
    trace s' = (new ++ trace s)%list /\
    bytes_read new = startup_banner s.
Proof.
  intros Hb Hm Hw.
  destruct (start_bluetooth_idle debug s Hb Hm Hw)
    as (gpio0 & cs & rst & s4 & new & Hrun & Ha & _ & Htrace & Hread & _).
  pose proof Hw as (_ & [[[g dg] lg] [Hg _]%digital_pin_inv] & _ & _ & Hu)%wired_inv.
  apply has_uart_attr in Hu as (tx & rx & b & t & n & Hu).
  assert (Hu4 : attrs s4 !! "_uart" = Some (VUart tx rx b t n))
    by (rewrite Ha, lookup_insert_ne by discriminate; exact Hu).
  assert (Hg4 : attrs s4 !! "_gpio0_and_rts" = Some (VPin g))
    by (rewrite Ha, lookup_insert_ne by discriminate; exact Hg).
  assert (Hc4 : attrs s4 !! "_cts" = attrs s !! "_cts")
    by (rewrite Ha, lookup_insert_ne by discriminate; reflexivity).
  assert (Hm4 : mode s4 = Some (VInt BLUETOOTH))
    by (unfold mode; rewrite Ha; apply lookup_insert_eq).
  assert (Hnew :
            bytes_read (new ++ reset_pulse rst (reset_active s) ++
                        [EvSwitchToOutput cs false; EvSwitchToOutput gpio0 true]) =
            startup_banner s).
  { rewrite !bytes_read_app, Hread. reflexivity. }
  assert (Hfinal : forall st, attrs st = attrs s4 ->
            (uart <- getattr "_uart" ;;
             rts <- getattr "_gpio0_and_rts" ;;
             cts <- getattr "_cts" ;;
             _bleio.Adapter uart rts cts) st =
            (match attrs s !! "_cts" with
             | Some cts => Returns (bleio_Adapter (VUart tx rx b t n) (VPin g) cts)
             | None => Raises (AttributeError "_cts")
             end, st)).
  { intros st Hst. rewrite <- Hst in Hu4, Hg4, Hc4.
    rewrite (bind_Returns _ _ _ _ _ (getattr_instance _ _ _ Hu4)).
    rewrite (bind_Returns _ _ _ _ _ (getattr_instance _ _ _ Hg4)).
    unfold bind, getattr. rewrite Hc4.
    destruct (attrs s !! "_cts"); reflexivity. }
  exists (VUart tx rx b t n), (VPin g). rewrite Hrun.
  destruct (startup_banner s) as [| b0 banner] eqn:Hbanner.
  - exists s4, (new ++ reset_pulse rst (reset_active s) ++
               [EvSwitchToOutput cs false; EvSwitchToOutput gpio0 true])%list.
    repeat split; try assumption.
    rewrite Htrace, <- ?app_assoc. reflexivity.
  - destruct debug.
    + unfold try_except, bytes_decode, bind at 1 2.
      destruct (decode (b0 :: banner)) as [message |].
      * cbn [ret print modify bool_decide].
        rewrite (Hfinal (emit (EvPrint message) s4) eq_refl).
        exists (emit (EvPrint message) s4),
          (EvPrint message :: new ++ reset_pulse rst (reset_active s) ++
             [EvSwitchToOutput cs false; EvSwitchToOutput gpio0 true])%list.
        repeat split; try assumption.
        -- fields. rewrite Htrace. cbn [app]. rewrite <- ?app_assoc. reflexivity.
        -- cbn [bytes_read read_of]. rewrite Hnew. apply app_nil_r.
      * cbn.
        exists s4, (new ++ reset_pulse rst (reset_active s) ++
                   [EvSwitchToOutput cs false; EvSwitchToOutput gpio0 true])%list.
        repeat split; try assumption.
        rewrite Htrace, <- ?app_assoc. reflexivity.
    + rewrite (bind_Returns _ _ _ _ _ (eq_refl : ret tt s4 = (Returns tt, s4))).
      rewrite (Hfinal s4 eq_refl).
      exists s4, (new ++ reset_pulse rst (reset_active s) ++
                 [EvSwitchToOutput cs false; EvSwitchToOutput gpio0 true])%list.
      repeat split; try assumption.
      rewrite Htrace, <- ?app_assoc. reflexivity.
Qed.

(** From idle, [start_bluetooth] assigns the mode first and nothing that
    follows assigns an attribute, however the call ends. *)
Lemma start_bluetooth_sets_mode debug s :
  has_bleio s = true -> mode s = Some (VInt NOT_IN_USE) ->
  mode (snd (start_bluetooth decode debug s)) = Some (VInt BLUETOOTH).
Proof.
  intros Hb Hm. unfold start_bluetooth.
  rewrite (bind_Returns _ _ _ _ _ (import_eq _ Hb)).
  rewrite (bind_Returns _ _ _ _ _ (getattr_mode _ _ Hm)).
  change (py_eq (VInt NOT_IN_USE) (VInt BLUETOOTH)) with false. cbv iota.
  rewrite (bind_Returns _ _ _ _ _ (getattr_mode _ _ Hm)).
  change (py_eq (VInt NOT_IN_USE) (VInt WIFI)) with false. cbv iota.
  set (s1 := with_attrs (<["_mode" := VInt BLUETOOTH]> (attrs s)) s).
  assert (H1 : setattr "_mode" (VInt BLUETOOTH) s = (Returns tt, s1)) by reflexivity.
  rewrite (bind_Returns _ _ _ _ _ H1).
  match goal with |- context [snd (?m s1)] =>
    assert (Hev : respects evolves m) by evolves_all;
    destruct (m s1) as [r s'] eqn:Hrun
  end.
  destruct (Hev _ _ _ Hrun) as ([Ha _] & _).
  cbn [snd]. unfold mode. rewrite Ha. apply lookup_insert_eq.
Qed.

(** C4. On a wired instance in mode [NOT_IN_USE] the bytes [start_bluetooth]
    reads from the serial channel, all of them read by the reset sequence,
    are the startup banner.  If the channel yielded no byte, the call raises
    the error for the missing startup message; if it yielded any, that error
    is not raised. *)
Theorem start_bluetooth_no_startup_response debug s r s' :
  has_bleio s = true -> mode s = Some (VInt NOT_IN_USE) -> wired s = true ->
  start_bluetooth decode debug s = (r, s') ->
  exists new,
    trace s' = (new ++ trace s)%list /\
    bytes_read new = startup_banner s /\
    (bytes_read new = [] -> r = Raises NoStartupResponse) /\
    (bytes_read new <> [] -> r <> Raises NoStartupResponse).
Proof.
  intros Hb Hm Hw Hrun.
  destruct (start_bluetooth_idle_outcome debug s Hb Hm Hw)
    as (uart & rts & s'' & new & _ & _ & Hout & _ & Htrace & Hread).
  rewrite Hout in Hrun. injection Hrun as <- <-.
  exists new. rewrite Hread. split; [exact Htrace |]. split; [reflexivity |].
  destruct (startup_banner s) as [| b0 banner].
  - split; [reflexivity | congruence].
  - split; [discriminate |]. intros _.
    destruct debug, (decode (b0 :: banner)), (attrs s !! "_cts"); discriminate.
Qed.

(** C6. When [start_bluetooth] is called in mode [NOT_IN_USE] and raises
    the error for the missing startup message or the one for the garbled
    banner, the state it leaves has mode [BLUETOOTH]: the mode was assigned
    before the reset and is not put back. *)
Theorem failed_start_leaves_bluetooth_mode debug s e s' :
  has_bleio s = true -> mode s = Some (VInt NOT_IN_USE) ->
  start_bluetooth decode debug s = (Raises e, s') ->
  e = NoStartupResponse \/ e = GarbledStartup ->
  mode s' = Some (VInt BLUETOOTH).
Proof.
  intros Hb Hm Hrun _.
  pose proof (start_bluetooth_sets_mode debug s Hb Hm) as H.
  rewrite Hrun in H. exact H.
Qed.

(** C9. In every state whose mode is an integer other than [BLUETOOTH]
    (so in [NOT_IN_USE]), [stop_bluetooth] returns at once and leaves the
    whole state as it found it: no pin written, nothing asked of the serial
    channel, no attribute changed.  In Bluetooth mode, on a wired instance,
    it runs the reset sequence: the trace grows by the reset pulse followed
    by serial events only. *)
Theorem stop_bluetooth_noop_unless_bluetooth s :
  (forall m, mode s = Some (VInt m) -> m <> BLUETOOTH ->
     stop_bluetooth s = (Returns tt, s)) /\
  (mode s = Some (VInt BLUETOOTH) -> wired s = true ->
     exists pin level s' new,
       digital_pin s "_reset" = Some (pin, OUTPUT, level) /\
       stop_bluetooth s = (Returns tt, s') /\
       trace s' = (new ++ reset_pulse pin (reset_active s) ++ trace s)%list /\
       forallb is_uart_event new = true).
Proof.
  split.
  - intros m Hm Hne. unfold stop_bluetooth.
    rewrite (bind_Returns _ _ _ _ _ (getattr_mode _ _ Hm)).
    unfold py_ne, py_eq. cbn [as_number].
    destruct (Z.eqb_spec m BLUETOOTH) as [-> | _]; [contradiction | reflexivity].
  - intros Hm ((pin & level & Hreset) & _ & _ & Hhigh & Hu)%wired_inv.
    destruct (_reset_esp32_wired s pin level Hreset Hhigh Hu)
      as (s' & new & Hrun & Htrace & _ & Hev & _).
    exists pin, level, s', new. repeat split; try assumption.
    rewrite (stop_bluetooth_in_bluetooth _ Hm).
    rewrite (bind_Returns _ _ _ _ _ Hrun). reflexivity.
Qed.

(** A call in Bluetooth mode leaves the mode alone. *)
Lemma call_in_bluetooth op s :
  mode s = Some (VInt BLUETOOTH) -> mode (call decode op s) = Some (VInt BLUETOOTH).
Proof.
  intros Hm. destruct op as [debug | | |]; cbn [call].
  - unfold start_bluetooth. destruct (has_bleio s) eqn:Hb.
    + fold (start_bluetooth decode debug).
      rewrite (start_bluetooth_in_bluetooth debug s Hb Hm). exact Hm.
    + unfold _bleio.import, bind, get. rewrite Hb. exact Hm.
  - destruct (stop_bluetooth_same_object s) as [Ha _].
    unfold mode in *. rewrite Ha. exact Hm.
  - exact Hm.
  - exact Hm.
Qed.

Lemma calls_in_bluetooth ops : forall s,
  mode s = Some (VInt BLUETOOTH) -> mode (calls decode ops s) = Some (VInt BLUETOOTH).
Proof.
  induction ops as [| op ops IH]; intros s Hm; [exact Hm |].
  cbn [calls foldl]. apply IH, call_in_bluetooth, Hm.
Qed.

(** C10. Bluetooth mode is absorbing.  From a state in Bluetooth mode:
    [stop_bluetooth] leaves the mode at Bluetooth (it assigns no attribute
    at all) and, on a wired instance, runs the reset: it returns after
    adding the reset pulse and then serial events to the trace;
    [start_bluetooth] returns the existing handle and the state it found;
    [start_wifi] and [stop_wifi] raise [NotImplementedError] and leave the
    state they found; so after any sequence of calls the mode is still
    Bluetooth.  In particular a [start_bluetooth] after a [stop_bluetooth]
    returns the existing handle from the state the stop left, adding no
    event to the trace. *)
Theorem bluetooth_mode_absorbing s :
  has_bleio s = true -> mode s = Some (VInt BLUETOOTH) ->
  mode (snd (stop_bluetooth s)) = Some (VInt BLUETOOTH) /\
  (wired s = true ->
   exists pin level s' new,
     digital_pin s "_reset" = Some (pin, OUTPUT, level) /\
     stop_bluetooth s = (Returns tt, s') /\
     trace s' = (new ++ reset_pulse pin (reset_active s) ++ trace s)%list /\
     forallb is_uart_event new = true /\
     mode s' = Some (VInt BLUETOOTH)) /\
  (forall debug, start_bluetooth decode debug s = (Returns _bleio.adapter, s)) /\
  start_wifi s = (Raises NotImplemented, s) /\
  stop_wifi s = (Raises NotImplemented, s) /\
  (forall ops, mode (calls decode ops s) = Some (VInt BLUETOOTH)) /\
  (forall debug,
     start_bluetooth decode debug (snd (stop_bluetooth s)) =
       (Returns _bleio.adapter, snd (stop_bluetooth s))).
Proof.
  intros Hb Hm.
  assert (Hstop : mode (snd (stop_bluetooth s)) = Some (VInt BLUETOOTH))
    by exact (call_in_bluetooth StopBluetooth s Hm).
  split; [exact Hstop |]. split.
  { intros ((pin & level & Hreset) & _ & _ & Hhigh & Hu)%wired_inv.
    destruct (_reset_esp32_wired s pin level Hreset Hhigh Hu)
      as (s' & new & Hrun & Htrace & _ & Hev & _).
    assert (Hs : stop_bluetooth s = (Returns tt, s')).
    { rewrite (stop_bluetooth_in_bluetooth _ Hm).
      rewrite (bind_Returns _ _ _ _ _ Hrun). reflexivity. }
    exists pin, level, s', new. repeat split; try assumption.
    rewrite Hs in Hstop. exact Hstop. }
  repeat split.
  - intros debug. apply start_bluetooth_in_bluetooth; assumption.
  - intros ops. apply calls_in_bluetooth, Hm.
  - intros debug. apply start_bluetooth_in_bluetooth; [| exact Hstop].
    destruct (stop_bluetooth_same_object s) as [_ Hb']. congruence.
Qed.

End Arbitration.

(** ** Construction *)

Lemma claim_pin_inv pin use s s' :
  claim_pin pin use s = (Returns tt, s') ->
  pins s !! pin = None /\ s' = with_pins (<[pin := use]> (pins s)) s.
Proof.
  unfold claim_pin, bind, get. destruct (pins s !! pin); [discriminate |].
  intros [= <-]. auto.
Qed.

Lemma DigitalInOut_inv pin s v s' :
  digitalio.DigitalInOut pin s = (Returns v, s') ->
  pins s !! pin = None /\ v = VPin pin /\
  s' = with_pins (<[pin := Digital INPUT false]> (pins s)) s.
Proof.
  unfold digitalio.DigitalInOut. intros H.
  apply bind_inv in H as [([] & s1 & H1 & H) | [(e & _ & [=]) | [_ [=]]]].
  apply claim_pin_inv in H1 as [Hfree ->]. injection H as <- <-. auto.
Qed.

Lemma UART_inv tx rx b t n s v s' :
  busio.UART tx rx b t n s = (Returns v, s') ->
  pins s !! tx = None /\ pins s !! rx = None /\ tx <> rx /\
  v = VUart tx rx b t n /\
  s' = with_rx [] (with_pins (<[rx := Serial]> (<[tx := Serial]> (pins s))) s).
Proof.
  unfold busio.UART. intros H.
  apply bind_inv in H as [([] & s1 & H1 & H) | [(e & _ & [=]) | [_ [=]]]].
  apply claim_pin_inv in H1 as [Htx ->].
  apply bind_inv in H as [([] & s2 & H2 & H) | [(e & _ & [=]) | [_ [=]]]].
  apply claim_pin_inv in H2 as [Hrx ->]. fields.
  apply lookup_insert_None in Hrx as [Hrx Hne].
  injection H as <- <-. auto 6.
Qed.

(** Take the next statement off a run that is known to return. *)
Ltac returned H :=
  let a := fresh "a" in
  let s1 := fresh "s" in
  let H1 := fresh "Hstep" in
  apply bind_inv in H as [(a & s1 & H1 & H) | [(? & _ & [=]) | [_ [=]]]].

(** What a successful construction leaves: the eight attributes of
    [__init__], the six pins claimed on a board where all of them were free
    and distinct, the reset line switched to an output at the level
    [reset_high], and an empty receiver. *)
Lemma ESP32_constructed a s0 s :
  ESP32 a s0 = (Returns tt, s) ->
  attrs s =
    <["_uart" := VUart (esp_tx a) (esp_rx a) 115200 0 512]>
    (<["_chip_select" := VPin (esp_cs a)]>
    (<["_busy_and_cts" := VPin (esp_busy a)]>
    (<["_gpio0_and_rts" := VPin (esp_gpio0 a)]>
    (<["_reset" := VPin (esp_reset a)]>
    (<["_reset_high" := VBool (reset_high a)]>
    (<["_spi" := VSpi (match spi a with None => board_SPI | Some bus => bus end)]>
    (<["_mode" := VInt NOT_IN_USE]> ∅))))))) /\
  pins s =
    <[esp_rx a := Serial]>
    (<[esp_tx a := Serial]>
    (<[esp_cs a := Digital INPUT false]>
    (<[esp_busy a := Digital INPUT false]>
    (<[esp_gpio0 a := Digital INPUT false]>
    (<[esp_reset a := Digital OUTPUT (reset_high a)]> (pins s0)))))) /\
  NoDup [esp_reset a; esp_gpio0 a; esp_busy a; esp_cs a; esp_tx a; esp_rx a] /\
  rx_buffer s = [] /\ wire s = wire s0 /\ has_bleio s = has_bleio s0 /\
  trace s = EvSwitchToOutput (esp_reset a) (reset_high a) :: trace s0.
Proof.
  unfold ESP32, __init__. intros H.
  returned H. injection Hstep as <- <-.
  do 3 (returned H; injection Hstep as <- <-). fields.
  returned H. apply DigitalInOut_inv in Hstep as (Hreset & -> & ->). fields.
  returned H. injection Hstep as <- <-. fields.
  returned H. unfold getattr in Hstep. fields.
  rewrite lookup_insert_eq in Hstep. injection Hstep as <- <-.
  returned H.
  rewrite (switch_to_output_eq _ _ _ INPUT false) in Hstep
    by (fields; apply lookup_insert_eq).
  injection Hstep as <- <-. fields. rewrite insert_insert_eq in H.
  returned H. apply DigitalInOut_inv in Hstep as (Hgpio0 & -> & ->). fields.
  returned H. injection Hstep as <- <-. fields.
  returned H. apply DigitalInOut_inv in Hstep as (Hbusy & -> & ->). fields.
  returned H. injection Hstep as <- <-. fields.
  returned H. apply DigitalInOut_inv in Hstep as (Hcs & -> & ->). fields.
  returned H. injection Hstep as <- <-. fields.
  returned H. apply UART_inv in Hstep as (Htx & Hrx & Hne & -> & ->). fields.
  injection H as <-. fields.
  rewrite !lookup_insert_None in *.
  repeat split; try reflexivity.
  repeat (apply NoDup_cons_2;
          [rewrite ?not_elem_of_cons; intuition (try congruence);
           eapply not_elem_of_nil; eassumption |]).
  apply NoDup_nil_2.
Qed.

Lemma ESP32_pins a s0 s :
  ESP32 a s0 = (Returns tt, s) ->
  pins s !! esp_reset a = Some (Digital OUTPUT (reset_high a)) /\
  pins s !! esp_gpio0 a = Some (Digital INPUT false) /\
  pins s !! esp_busy a = Some (Digital INPUT false) /\
  pins s !! esp_cs a = Some (Digital INPUT false).
Proof.
  intros (_ & -> & Hnd & _)%ESP32_constructed.
  repeat match goal with
         | H : NoDup (_ :: _) |- _ => apply NoDup_cons in H as [? H]
         end.
  rewrite ?not_elem_of_cons in *.
  repeat split;
    repeat first
      [ apply lookup_insert_eq
      | rewrite lookup_insert_ne by (intuition congruence) ].
Qed.

(** Look an attribute up in a dictionary written as a chain of updates. *)
Ltac attr_lookup :=
  repeat first
    [ apply lookup_insert_eq
    | rewrite lookup_insert_ne by discriminate
    | apply lookup_empty ].

Lemma ESP32_attrs a s0 s :
  ESP32 a s0 = (Returns tt, s) ->
  mode s = Some (VInt NOT_IN_USE) /\
  attrs s !! "_reset_high" = Some (VBool (reset_high a)) /\
  attrs s !! "_reset" = Some (VPin (esp_reset a)) /\
  attrs s !! "_gpio0_and_rts" = Some (VPin (esp_gpio0 a)) /\
  attrs s !! "_busy_and_cts" = Some (VPin (esp_busy a)) /\
  attrs s !! "_chip_select" = Some (VPin (esp_cs a)) /\
  attrs s !! "_uart" = Some (VUart (esp_tx a) (esp_rx a) 115200 0 512) /\
  attrs s !! "_cts" = None.
Proof.
  intros (Ha & _)%ESP32_constructed. unfold mode. rewrite Ha.
  repeat split; attr_lookup.
Qed.

(** A constructed instance is wired, idle, and has no attribute [_cts]. *)
Lemma ESP32_wired a s0 s :
  ESP32 a s0 = (Returns tt, s) ->
  wired s = true /\ mode s = Some (VInt NOT_IN_USE) /\ attrs s !! "_cts" = None.
Proof.
  intros H. pose proof (ESP32_pins _ _ _ H) as (Hr & Hg & _ & Hc).
  apply ESP32_attrs in H as (Hm & Hh & Har & Hag & _ & Hac & Hu & Hcts).
  repeat split; try assumption.
  unfold wired, digital_pin, has_uart.
  rewrite Har, Hag, Hac, Hh, Hu, Hr, Hg, Hc.
  rewrite !bool_decide_eq_true_2 by eauto. reflexivity.
Qed.

(** C7, amended. For both polarities, a construction that succeeds leaves
    the reset pin an output driven at the level [reset_high], which is the
    active level of the reset line (the level [_reset_esp32] drives first),
    so the device is held in reset; the mode is [NOT_IN_USE]. *)
Theorem construction_holds_reset a s0 s :
  ESP32 a s0 = (Returns tt, s) ->
  digital_pin s "_reset" = Some (esp_reset a, OUTPUT, reset_high a) /\
  reset_active s = reset_high a /\
  mode s = Some (VInt NOT_IN_USE).
Proof.
  intros H. pose proof (ESP32_pins _ _ _ H) as (Hr & _).
  apply ESP32_attrs in H as (Hm & Hh & Har & _).
  unfold digital_pin, reset_active. rewrite Har, Hr, Hh. auto.
Qed.

(** C7 as stated fails for either polarity: after construction the reset
    pin is at the level [reset_high], not at its negation. *)
Lemma construction_reset_inactive_counterexample :
  (fst (ESP32 (args_reset_high false) (fresh_board [])) = Returns tt /\
   digital_pin (snd (ESP32 (args_reset_high false) (fresh_board []))) "_reset"
     = Some ("ESP_RESET", OUTPUT, false) /\
   digital_pin (snd (ESP32 (args_reset_high false) (fresh_board []))) "_reset"
     <> Some ("ESP_RESET", OUTPUT, negb false)) /\
  (fst (ESP32 (args_reset_high true) (fresh_board [])) = Returns tt /\
   digital_pin (snd (ESP32 (args_reset_high true) (fresh_board []))) "_reset"
     = Some ("ESP_RESET", OUTPUT, true) /\
   digital_pin (snd (ESP32 (args_reset_high true) (fresh_board []))) "_reset"
     <> Some ("ESP_RESET", OUTPUT, negb true)).
Proof. repeat split; try (vm_compute; reflexivity); vm_compute; discriminate. Qed.

(** ** The drain, read as a specification *)

Lemma drained_prefix w buffer : exists later, drained w buffer = (buffer ++ later)%list.
Proof. destruct w, buffer; cbn; eauto. Qed.

Lemma drained_quiet w buffer : head w = None \/ head w = Some [] -> drained w buffer = buffer.
Proof.
  destruct w as [| burst later], buffer as [| b bs]; cbn; try reflexivity.
  - intros _. rewrite app_nil_r. reflexivity.
  - intros [[=] | [= ->]]. destruct later; cbn; rewrite app_nil_r; reflexivity.
Qed.

(** C8, amended. On a wired instance [_reset_esp32] pulses the reset line
    and then reads the serial channel, without waiting, for as long as the
    channel reports bytes: what it returns is every byte it read, in order;
    this begins with the bytes the receiver held when the drain started and
    goes on with those that arrived between the reads; the loop ends on a
    report of zero bytes and leaves the receiver empty.  When nothing
    arrives after the first read, the banner is what was there at the
    start. *)
Theorem reset_drains_until_empty s :
  wired s = true ->
  exists pin s' new,
    _reset_esp32 s = (Returns (bytes_read new), s') /\
    trace s' = (new ++ reset_pulse pin (reset_active s) ++ trace s)%list /\
    forallb is_uart_event new = true /\
    head new = Some (EvInWaiting 0) /\
    rx_buffer s' = [] /\
    bytes_read new = startup_banner s /\
    (exists later, bytes_read new = (available_at_drain s ++ later)%list) /\
    (head (wire (tick (tick s))) = None \/ head (wire (tick (tick s))) = Some [] ->
     bytes_read new = available_at_drain s).
Proof.
  intros ((pin & level & Hreset) & _ & _ & Hhigh & Hu)%wired_inv.
  destruct (_reset_esp32_wired s pin level Hreset Hhigh Hu)
    as (s' & new & Hrun & Htrace & Hread & Hev & _ & Hempty & _ & Hlast).
  exists pin, s', new. rewrite Hread. repeat split; try assumption.
  - apply drained_prefix.
  - apply drained_quiet.
Qed.

(** C8 as stated fails when bytes arrive while the drain is under way:
    with [AB] in the receiver after the two sleeps and [CD] arriving during
    the first read, the loop reads twice and the banner is [ABCD], not the
    [AB] that was available when the drain started. *)
Lemma reset_single_pass_counterexample :
  available_at_drain (constructed [[]; [x41; x42]; [x43; x44]]) = [x41; x42] /\
  fst (_reset_esp32 (constructed [[]; [x41; x42]; [x43; x44]]))
    = Returns [x41; x42; x43; x44] /\
  fst (_reset_esp32 (constructed [[]; [x41; x42]; [x43; x44]]))
    <> Returns (available_at_drain (constructed [[]; [x41; x42]; [x43; x44]])) /\
  reads (trace (snd (_reset_esp32 (constructed [[]; [x41; x42]; [x43; x44]])))) = 2%nat.
Proof. repeat split; try (vm_compute; reflexivity); vm_compute; discriminate. Qed.

(** ** The adapter is never built *)

Section Handshake.

Variable decode : bytes -> option text.

(** However it ends, [start_bluetooth] either leaves the state it found or
    assigns the mode and goes on with steps that respect [evolves]. *)
Lemma start_bluetooth_steps debug s :
  snd (start_bluetooth decode debug s) = s \/
  evolves (in_mode BLUETOOTH s) (snd (start_bluetooth decode debug s)).
Proof.
  unfold start_bluetooth.
  destruct (_bleio.import s) as [[[] | e |] s1] eqn:Himport;
    pose proof (import_state _ _ _ Himport) as ->;
    [rewrite (bind_Returns _ _ _ _ _ Himport)
    | rewrite (bind_Raises _ _ _ _ _ Himport); auto
    | unfold bind; rewrite Himport; auto].
  destruct (getattr "_mode" s) as [[v | e |] s1] eqn:Hmode;
    pose proof (getattr_state _ _ _ _ Hmode) as ->;
    [rewrite (bind_Returns _ _ _ _ _ Hmode)
    | rewrite (bind_Raises _ _ _ _ _ Hmode); auto
    | unfold bind; rewrite Hmode; auto].
  destruct (py_eq v (VInt BLUETOOTH)); [auto |].
  rewrite (bind_Returns _ _ _ _ _ Hmode).
  destruct (py_eq v (VInt WIFI)); [auto |].
  assert (H1 : setattr "_mode" (VInt BLUETOOTH) s = (Returns tt, in_mode BLUETOOTH s))
    by reflexivity.
  rewrite (bind_Returns _ _ _ _ _ H1).
  match goal with |- context [snd (?m (in_mode BLUETOOTH s))] =>
    assert (Hev : respects evolves m) by evolves_all;
    destruct (m (in_mode BLUETOOTH s)) as [r s'] eqn:Hrun
  end.
  right. exact (Hev _ _ _ Hrun).
Qed.

(** No call assigns an attribute other than the mode. *)
Lemma call_attrs op s name :
  name <> "_mode" -> attrs (call decode op s) !! name = attrs s !! name.
Proof.
  intros Hne. destruct op as [debug | | |]; cbn [call]; try reflexivity.
  - destruct (start_bluetooth_steps debug s) as [-> | ([-> _] & _)]; [reflexivity |].
    apply lookup_insert_ne. congruence.
  - destruct (stop_bluetooth_same_object s) as [-> _]. reflexivity.
Qed.

Lemma calls_attrs ops name : forall s,
  name <> "_mode" -> attrs (calls decode ops s) !! name = attrs s !! name.
Proof.
  induction ops as [| op ops IH]; intros s Hne; [reflexivity |].
  cbn [calls foldl]. fold (calls decode ops (call decode op s)).
  rewrite IH by exact Hne. apply call_attrs, Hne.
Qed.

(** The wiring is an invariant of the public methods. *)
Lemma call_wired op s : wired s = true -> wired (call decode op s) = true.
Proof.
  intros Hw. destruct op as [debug | | |]; cbn [call]; try exact Hw.
  - destruct (start_bluetooth_steps debug s) as [-> | Hev]; [exact Hw |].
    eapply wired_evolves; [exact Hev |]. apply wired_set_mode, Hw.
  - destruct (stop_bluetooth s) as [r s'] eqn:Hrun. cbn [snd].
    assert (Hev : respects evolves stop_bluetooth)
      by (unfold stop_bluetooth; evolves_all).
    eapply wired_evolves; [exact (Hev _ _ _ Hrun) | exact Hw].
Qed.

(** Every state a caller can reach from a successful construction is
    wired. *)
Lemma reachable_wired a s0 s ops :
  ESP32 a s0 = (Returns tt, s) -> wired (calls decode ops s) = true.
Proof.
  intros (Hw & _)%ESP32_wired. revert s Hw.
  induction ops as [| op ops IH]; intros s Hw; [exact Hw |].
  cbn [calls foldl]. apply IH, call_wired, Hw.
Qed.

(** The class has no attribute [_cts] either, so the lookup raises. *)
Lemma getattr_cts s :
  attrs s !! "_cts" = None ->
  getattr "_cts" s = (Raises (AttributeError "_cts"), s).
Proof. unfold getattr. intros ->. reflexivity. Qed.

Lemma bind_without_cts {A B} (m : Py A) (k : A -> Py B) y :
  respects evolves m ->
  (forall a s, attrs s !! "_cts" = None -> fst (k a s) <> Returns y) ->
  forall s, attrs s !! "_cts" = None -> fst (bind m k s) <> Returns y.
Proof.
  intros Hm Hk s Hcts. unfold bind.
  destruct (m s) as [[a | e |] s1] eqn:Hrun; try discriminate.
  apply Hk. destruct (Hm _ _ _ Hrun) as ([-> _] & _). exact Hcts.
Qed.

(** On an instance without the attribute [_cts] no call of
    [start_bluetooth] returns an adapter built by [_bleio.Adapter]. *)
Lemma start_bluetooth_without_cts debug s uart rts cts :
  attrs s !! "_cts" = None ->
  fst (start_bluetooth decode debug s) <> Returns (bleio_Adapter uart rts cts).
Proof.
  intros Hcts. unfold start_bluetooth.
  destruct (_bleio.import s) as [[[] | e |] s1] eqn:Himport;
    pose proof (import_state _ _ _ Himport) as ->;
    [rewrite (bind_Returns _ _ _ _ _ Himport)
    | rewrite (bind_Raises _ _ _ _ _ Himport); discriminate
    | unfold bind; rewrite Himport; discriminate].
  destruct (getattr "_mode" s) as [[v | e |] s1] eqn:Hmode;
    pose proof (getattr_state _ _ _ _ Hmode) as ->;
    [rewrite (bind_Returns _ _ _ _ _ Hmode)
    | rewrite (bind_Raises _ _ _ _ _ Hmode); discriminate
    | unfold bind; rewrite Hmode; discriminate].
  destruct (py_eq v (VInt BLUETOOTH)); [discriminate |].
  rewrite (bind_Returns _ _ _ _ _ Hmode).
  destruct (py_eq v (VInt WIFI)); [discriminate |].
  set (s1 := with_attrs (<["_mode" := VInt BLUETOOTH]> (attrs s)) s).
  assert (H1 : setattr "_mode" (VInt BLUETOOTH) s = (Returns tt, s1)) by reflexivity.
  rewrite (bind_Returns _ _ _ _ _ H1).
  assert (Hcts1 : attrs s1 !! "_cts" = None)
    by (unfold s1; fields; rewrite lookup_insert_ne by discriminate; exact Hcts).
  revert Hcts1. generalize s1. clear.
  do 4 (apply bind_without_cts; [evolves_all | intros ?]).
  apply bind_without_cts; [evolves_all | intros startup_message].
  destruct startup_message as [| b0 banner]; [discriminate |].
  do 3 (apply bind_without_cts; [evolves_all | intros ?]).
  intros s Hcts. rewrite (bind_Raises _ _ _ _ _ (getattr_cts _ Hcts)). discriminate.
Qed.

(** X8. Whatever calls came before, an instance built by the constructor
    never gets an adapter out of [_bleio.Adapter]: no call of
    [start_bluetooth] on it returns a handle built over the serial channel
    and the flow-control pins. *)
Lemma constructed_never_builds a s0 s ops debug uart rts cts :
  ESP32 a s0 = (Returns tt, s) ->
  fst (start_bluetooth decode debug (calls decode ops s))
    <> Returns (bleio_Adapter uart rts cts).
Proof.
  intros (_ & _ & _ & _ & _ & _ & _ & Hcts)%ESP32_attrs.
  apply start_bluetooth_without_cts.
  rewrite calls_attrs by discriminate. exact Hcts.
Qed.

(** The first call on a constructed instance, when the banner is there and
    (if asked for) decodes: the lookup of [_cts] raises. *)
Lemma start_bluetooth_raises_at_cts debug a s0 s :
  ESP32 a s0 = (Returns tt, s) -> has_bleio s = true ->
  startup_banner s <> [] ->
  (debug = true -> is_Some (decode (startup_banner s))) ->
  fst (start_bluetooth decode debug s) = Raises (AttributeError "_cts").
Proof.
  intros (Hw & Hm & Hcts)%ESP32_wired Hb Hbanner Hdecode.
  destruct (start_bluetooth_idle_outcome decode debug s Hb Hm Hw)
    as (uart & rts & s' & new & _ & _ & -> & _).
  cbn [fst]. rewrite Hcts.
  destruct (startup_banner s) as [| b0 banner]; [congruence |].
  destruct debug; [| reflexivity].
  destruct (Hdecode eq_refl) as [message ->]. reflexivity.
Qed.

(** X7. From idle, on a wired instance: whenever debugging is on and the
    banner, not empty, does not decode, [start_bluetooth] raises the
    garbled-banner error; and that error is raised only with debugging on
    and a banner that is there, never with [debug] off and never for an
    empty banner.  Whether a banner that decodes can still end in this
    error is a matter of [print], which the source calls inside the same
    [try], and is not part of this statement. *)
Theorem start_bluetooth_garbled debug s :
  has_bleio s = true -> mode s = Some (VInt NOT_IN_USE) -> wired s = true ->
  (debug = true -> startup_banner s <> [] -> decode (startup_banner s) = None ->
   fst (start_bluetooth decode debug s) = Raises GarbledStartup) /\
  (fst (start_bluetooth decode debug s) = Raises GarbledStartup ->
   debug = true /\ startup_banner s <> []).
Proof.
  intros Hb Hm Hw.
  destruct (start_bluetooth_idle_outcome decode debug s Hb Hm Hw)
    as (uart & rts & s' & new & _ & _ & -> & _).
  cbn [fst].
  destruct (startup_banner s) as [| b0 banner].
  - split; [congruence | discriminate].
  - split.
    + intros -> _ ->. reflexivity.
    + destruct debug, (decode (b0 :: banner)), (attrs s !! "_cts");
        try discriminate; (intros _; split; [reflexivity | discriminate]).
Qed.




End Handshake.


(** C1. The code never returns the adapter the claim describes.  On a
    controller built with the default arguments whose co-processor answers
    the reset with the banner [A], [start_bluetooth] gets past the banner
    checks, with and without [debug], and then raises [AttributeError] for
    [self._cts]: [__init__] stores the busy pin as [_busy_and_cts], and no
    attribute [_cts] is ever assigned. *)
Theorem start_bluetooth_cts_missing :
  fst (ESP32 default_args (fresh_board [[]; [x41]])) = Returns tt /\
  mode (constructed [[]; [x41]]) = Some (VInt NOT_IN_USE) /\
  Utf8.decode [x41] = Some [65%N] /\
  startup_banner (constructed [[]; [x41]]) = [x41] /\
  attrs (constructed [[]; [x41]]) !! "_busy_and_cts" = Some (VPin "ESP_BUSY") /\
  attrs (constructed [[]; [x41]]) !! "_cts" = None /\
  fst (start_bluetooth Utf8.decode false (constructed [[]; [x41]]))
    = Raises (AttributeError "_cts") /\
  fst (start_bluetooth Utf8.decode true (constructed [[]; [x41]]))
    = Raises (AttributeError "_cts").
Proof. repeat split; vm_compute; reflexivity. Qed.

(** C5. With the banner [0xFF], which is not UTF-8, a call with [debug] set
    raises the garbled-banner error, as the claim says; the call without
    [debug] skips the decoding but does not succeed: it raises
    [AttributeError] for [self._cts]. *)
Theorem start_bluetooth_undecodable_banner :
  fst (ESP32 default_args (fresh_board [[]; [xff]])) = Returns tt /\
  mode (constructed [[]; [xff]]) = Some (VInt NOT_IN_USE) /\
  Utf8.decode [xff] = None /\
  startup_banner (constructed [[]; [xff]]) = [xff] /\
  fst (start_bluetooth Utf8.decode true (constructed [[]; [xff]]))
    = Raises GarbledStartup /\
  fst (start_bluetooth Utf8.decode false (constructed [[]; [xff]]))
    = Raises (AttributeError "_cts").
Proof. repeat split; vm_compute; reflexivity. Qed.


(** ** The theorems at work on a board *)


Lemma start_bluetooth_wifi_conflict_witness :
  has_bleio (in_mode WIFI (constructed [])) = true /\
  mode (in_mode WIFI (constructed [])) = Some (VInt WIFI) /\
  start_bluetooth Utf8.decode false (in_mode WIFI (constructed []))
    = (Raises ModeConflict, in_mode WIFI (constructed [])).
Proof.
  split; [reflexivity | split; [reflexivity |]].
  apply (start_bluetooth_wifi_conflict Utf8.decode false); reflexivity.
Defined.

Lemma start_bluetooth_no_startup_response_witness :
  wired (constructed []) = true /\
  exists new,
    trace (snd (start_bluetooth Utf8.decode false (constructed [])))
      = (new ++ trace (constructed []))%list /\
    bytes_read new = startup_banner (constructed []) /\
    (bytes_read new = [] ->
     fst (start_bluetooth Utf8.decode false (constructed []))
       = Raises NoStartupResponse) /\
    (bytes_read new <> [] ->
     fst (start_bluetooth Utf8.decode false (constructed []))
       <> Raises NoStartupResponse).
Proof.
  split; [reflexivity |].
  apply (start_bluetooth_no_startup_response Utf8.decode false (constructed [])
           (fst (start_bluetooth Utf8.decode false (constructed [])))
           (snd (start_bluetooth Utf8.decode false (constructed []))));
    [reflexivity | reflexivity | reflexivity | apply surjective_pairing].
Defined.

Lemma failed_start_leaves_bluetooth_mode_witness :
  mode (constructed []) = Some (VInt NOT_IN_USE) /\
  fst (start_bluetooth Utf8.decode false (constructed [])) = Raises NoStartupResponse /\
  mode (snd (start_bluetooth Utf8.decode false (constructed [])))
    = Some (VInt BLUETOOTH).
Proof.
  split; [reflexivity | split; [vm_compute; reflexivity |]].
  apply (failed_start_leaves_bluetooth_mode Utf8.decode false (constructed [])
           NoStartupResponse);
    [reflexivity | reflexivity | | left; reflexivity].
  vm_compute. reflexivity.
Defined.

Lemma stop_bluetooth_noop_unless_bluetooth_witness :
  stop_bluetooth (constructed []) = (Returns tt, constructed []) /\
  exists pin level s' new,
    digital_pin (in_mode BLUETOOTH (constructed [])) "_reset"
      = Some (pin, OUTPUT, level) /\
    stop_bluetooth (in_mode BLUETOOTH (constructed [])) = (Returns tt, s') /\
    trace s' =
      (new ++ reset_pulse pin (reset_active (in_mode BLUETOOTH (constructed [])))
           ++ trace (in_mode BLUETOOTH (constructed [])))%list /\
    forallb is_uart_event new = true.
Proof.
  split.
  - apply (proj1 (stop_bluetooth_noop_unless_bluetooth (constructed [])) NOT_IN_USE);
      [reflexivity | discriminate].
  - apply (proj2 (stop_bluetooth_noop_unless_bluetooth
                    (in_mode BLUETOOTH (constructed [])))); reflexivity.
Defined.

Lemma bluetooth_mode_absorbing_witness :
  mode (in_mode BLUETOOTH (constructed [[x41]])) = Some (VInt BLUETOOTH) /\
  wired (in_mode BLUETOOTH (constructed [[x41]])) = true /\
  (exists pin level s' new,
     digital_pin (in_mode BLUETOOTH (constructed [[x41]])) "_reset"
       = Some (pin, OUTPUT, level) /\
     stop_bluetooth (in_mode BLUETOOTH (constructed [[x41]])) = (Returns tt, s') /\
     trace s' =
       (new ++ reset_pulse pin (reset_active (in_mode BLUETOOTH (constructed [[x41]])))
            ++ trace (in_mode BLUETOOTH (constructed [[x41]])))%list /\
     forallb is_uart_event new = true /\
     mode s' = Some (VInt BLUETOOTH)) /\
  mode (calls Utf8.decode [StopBluetooth; StartWifi; StartBluetooth true; StopWifi]
          (in_mode BLUETOOTH (constructed [[x41]]))) = Some (VInt BLUETOOTH) /\
  start_bluetooth Utf8.decode true
    (snd (stop_bluetooth (in_mode BLUETOOTH (constructed [[x41]]))))
    = (Returns _bleio.adapter,
       snd (stop_bluetooth (in_mode BLUETOOTH (constructed [[x41]])))).
Proof.
  split; [reflexivity | split; [reflexivity |]].
  pose proof (bluetooth_mode_absorbing Utf8.decode
                (in_mode BLUETOOTH (constructed [[x41]])) eq_refl eq_refl)
    as (_ & Hreset & _ & _ & _ & Hcalls & Hagain).
  split; [apply Hreset; reflexivity | split; [apply Hcalls | apply Hagain]].
Defined.

Lemma construction_holds_reset_witness :
  fst (ESP32 (args_reset_high true) (fresh_board [])) = Returns tt /\
  digital_pin (snd (ESP32 (args_reset_high true) (fresh_board []))) "_reset"
    = Some ("ESP_RESET", OUTPUT, true) /\
  reset_active (snd (ESP32 (args_reset_high true) (fresh_board []))) = true /\
  mode (snd (ESP32 (args_reset_high true) (fresh_board []))) = Some (VInt NOT_IN_USE).
Proof.
  split; [reflexivity |].
  apply (construction_holds_reset (args_reset_high true) (fresh_board [])).
  apply surjective_pairing.
Defined.

Lemma reset_drains_until_empty_witness :
  wired (constructed [[]; [x41; x42]; [x43; x44]]) = true /\
  exists pin s' new,
    _reset_esp32 (constructed [[]; [x41; x42]; [x43; x44]])
      = (Returns (bytes_read new), s') /\
    trace s' =
      (new ++ reset_pulse pin (reset_active (constructed [[]; [x41; x42]; [x43; x44]]))
           ++ trace (constructed [[]; [x41; x42]; [x43; x44]]))%list /\
    forallb is_uart_event new = true /\
    head new = Some (EvInWaiting 0) /\
    rx_buffer s' = [] /\
    bytes_read new = startup_banner (constructed [[]; [x41; x42]; [x43; x44]]) /\
    (exists later,
       bytes_read new =
         (available_at_drain (constructed [[]; [x41; x42]; [x43; x44]]) ++ later)%list) /\
    (head (wire (tick (tick (constructed [[]; [x41; x42]; [x43; x44]])))) = None \/
     head (wire (tick (tick (constructed [[]; [x41; x42]; [x43; x44]])))) = Some [] ->
     bytes_read new = available_at_drain (constructed [[]; [x41; x42]; [x43; x44]])).
Proof.
  split; [reflexivity |].
  apply (reset_drains_until_empty (constructed [[]; [x41; x42]; [x43; x44]])).
  reflexivity.
Defined.

(** * Further properties of the methods *)

(** ** The reset sequence *)

(** X1. On a wired instance [_reset_esp32] returns the banner after exactly
    this sequence: the reset line is driven to the level [_reset_high], 100
    ms pass, the line is driven to the opposite level, 1000 ms pass, and
    then only the serial channel is used, with at most one read more than
    there are bursts still to come.  For either polarity the line is left an
    output at the released level; no other pin and no attribute changes. *)
Theorem reset_pulses_then_releases s :
  wired s = true ->
  exists pin level s' new,
    digital_pin s "_reset" = Some (pin, OUTPUT, level) /\
    _reset_esp32 s = (Returns (startup_banner s), s') /\
    trace s' =
      (new ++ [EvSleep 1000; EvSetValue pin (negb (reset_active s));
               EvSleep 100; EvSetValue pin (reset_active s)] ++ trace s)%list /\
    forallb is_uart_event new = true /\
    (reads new <= 1 + length (wire (tick (tick s))))%nat /\
    pins s' = <[pin := Digital OUTPUT (negb (reset_active s))]> (pins s) /\
    attrs s' = attrs s.
Proof.
  intros ((pin & level & Hreset) & _ & _ & Hhigh & Hu)%wired_inv.
  destruct (_reset_esp32_wired s pin level Hreset Hhigh Hu)
    as (s' & new & Hrun & Htrace & _ & Hev & Hn & _ & Hpins & _).
  destruct (_reset_esp32_evolves _ _ _ Hrun) as ([Ha _] & _).
  exists pin, level, s', new. auto 8.
Qed.

Lemma rx_buffer_tick s : exists burst, rx_buffer (tick s) = (rx_buffer s ++ burst)%list.
Proof.
  unfold tick. destruct (wire s) as [| burst later]; fields.
  - exists []. symmetry. apply app_nil_r.
  - exists burst. reflexivity.
Qed.

(** X2. [_reset_esp32] does not empty the receiver before it resets: on a
    wired instance the bytes the receiver held when the method was called
    are the beginning of the banner it returns. *)
Theorem reset_keeps_stale_bytes s :
  wired s = true ->
  exists later s', _reset_esp32 s = (Returns (rx_buffer s ++ later)%list, s').
Proof.
  intros ((pin & level & Hreset) & _ & _ & Hhigh & Hu)%wired_inv.
  destruct (_reset_esp32_wired s pin level Hreset Hhigh Hu) as (s' & new & Hrun & _).
  destruct (rx_buffer_tick s) as [b1 H1].
  destruct (rx_buffer_tick (tick s)) as [b2 H2].
  destruct (drained_prefix (wire (tick (tick s))) (available_at_drain s)) as [b3 H3].
  exists (b1 ++ b2 ++ b3)%list, s'. rewrite Hrun. unfold startup_banner.
  rewrite H3. unfold available_at_drain. rewrite H2, H1, <- !app_assoc. reflexivity.
Qed.

(** ** Construction *)

(** X3. A construction that succeeds leaves an instance with exactly the
    eight attributes of [__init__]: the mode [NOT_IN_USE], the SPI bus given
    or else [board.SPI()], the reset polarity, the four pin objects and a
    serial channel at 115200 baud that never waits, with a receive buffer of
    512 bytes.  Of the six pins handed in only reset has been driven: gpio0,
    busy and chip select are claimed but still inputs, the two serial lines
    belong to the channel, and the one event of the construction is the
    switch of the reset line.  When an SPI bus is handed in, so that the
    constructor does not call [board.SPI()], every pin other than the six
    is as it was before. *)
Theorem construction_leaves a s0 s :
  ESP32 a s0 = (Returns tt, s) ->
  attrs s =
    <["_uart" := VUart (esp_tx a) (esp_rx a) 115200 0 512]>
    (<["_chip_select" := VPin (esp_cs a)]>
    (<["_busy_and_cts" := VPin (esp_busy a)]>
    (<["_gpio0_and_rts" := VPin (esp_gpio0 a)]>
    (<["_reset" := VPin (esp_reset a)]>
    (<["_reset_high" := VBool (reset_high a)]>
    (<["_spi" := VSpi (match spi a with None => board_SPI | Some bus => bus end)]>
    (<["_mode" := VInt NOT_IN_USE]> ∅))))))) /\
  digital_pin s "_gpio0_and_rts" = Some (esp_gpio0 a, INPUT, false) /\
  digital_pin s "_busy_and_cts" = Some (esp_busy a, INPUT, false) /\
  digital_pin s "_chip_select" = Some (esp_cs a, INPUT, false) /\
  pins s !! esp_tx a = Some Serial /\
  pins s !! esp_rx a = Some Serial /\
  (is_Some (spi a) ->
   forall pin,
     pin ∉ [esp_reset a; esp_gpio0 a; esp_busy a; esp_cs a; esp_tx a; esp_rx a] ->
     pins s !! pin = pins s0 !! pin) /\
  rx_buffer s = [] /\
  trace s = EvSwitchToOutput (esp_reset a) (reset_high a) :: trace s0.
Proof.
  intros H. pose proof (ESP32_pins _ _ _ H) as (_ & Hg & Hb & Hc).
  pose proof (ESP32_attrs _ _ _ H) as (_ & _ & _ & Hag & Hab & Hac & _).
  apply ESP32_constructed in H as (Ha & Hp & Hnd & Hrx & _ & _ & Htrace).
  repeat split; try assumption.
  - unfold digital_pin. rewrite Hag, Hg. reflexivity.
  - unfold digital_pin. rewrite Hab, Hb. reflexivity.
  - unfold digital_pin. rewrite Hac, Hc. reflexivity.
  - rewrite Hp.
    repeat match goal with
           | H : NoDup (_ :: _) |- _ => apply NoDup_cons in H as [? H]
           end.
    rewrite ?not_elem_of_cons in *.
    rewrite lookup_insert_ne by (intuition congruence). apply lookup_insert_eq.
  - rewrite Hp. apply lookup_insert_eq.
  - intros _ pin Hpin. rewrite Hp. rewrite !not_elem_of_cons in Hpin.
    rewrite !lookup_insert_ne by (intuition congruence). reflexivity.
Qed.

(** ** Calls of [start_bluetooth] *)

Section Calls.

Variable decode : bytes -> option text.

(** X4. On a board whose firmware has no [_bleio], [start_bluetooth] raises
    [ImportError] before it looks at the mode: in every state, Bluetooth
    mode included, and without changing anything. *)
Theorem start_bluetooth_without_bleio debug s :
  has_bleio s = false ->
  start_bluetooth decode debug s = (Raises (ImportError "_bleio"), s).
Proof.
  intros Hb. unfold start_bluetooth, _bleio.import, bind at 1 2, get.
  rewrite Hb. reflexivity.
Qed.

(** The three lookups for the adapter and its construction change
    nothing. *)
Lemma adapter_lookups_state s :
  snd ((uart <- getattr "_uart" ;;
        rts <- getattr "_gpio0_and_rts" ;;
        cts <- getattr "_cts" ;;
        _bleio.Adapter uart rts cts) s) = s.
Proof.
  assert (Hev : forall name (k : Value -> Py AdapterHandle),
            (forall v, snd (k v s) = s) -> snd (bind (getattr name) k s) = s).
  { intros name k Hk. unfold bind.
    destruct (getattr name s) as [[v | e |] s1] eqn:Hget;
      apply getattr_state in Hget as ->; [apply Hk | reflexivity | reflexivity]. }
  repeat (apply Hev; intros ?). reflexivity.
Qed.

(** With a banner in hand, what is left of [start_bluetooth] changes the
    state by the printing alone. *)
Lemma handshake_state (debug : bool) (banner : bytes) (s : State) :
  snd (((if debug then
           try_except
             (message <- bytes_decode decode banner ;; print message)
             (fun e => bool_decide (e = UnicodeError))
             (raise GarbledStartup)
         else ret tt) ;;
        uart <- getattr "_uart" ;;
        rts <- getattr "_gpio0_and_rts" ;;
        cts <- getattr "_cts" ;;
        _bleio.Adapter uart rts cts) s) =
  match debug, decode banner with
  | true, Some message => emit (EvPrint message) s
  | _, _ => s
  end.
Proof.
  destruct debug.
  - unfold try_except, bytes_decode, bind at 1 2.
    destruct (decode banner) as [message |].
    + cbn [ret print modify bool_decide]. apply adapter_lookups_state.
    + reflexivity.
  - rewrite (bind_Returns _ _ _ _ _ (eq_refl : ret tt s = (Returns tt, s))).
    apply adapter_lookups_state.
Qed.

(** From idle, on a wired instance: everything a call of [start_bluetooth]
    does to the board and the trace, however it ends. *)
Lemma start_bluetooth_idle_effects debug s :
  has_bleio s = true -> mode s = Some (VInt NOT_IN_USE) -> wired s = true ->
  exists gpio0 cs rst new,
    attrs s !! "_gpio0_and_rts" = Some (VPin gpio0) /\
    attrs s !! "_chip_select" = Some (VPin cs) /\
    attrs s !! "_reset" = Some (VPin rst) /\
    trace (snd (start_bluetooth decode debug s)) =
      (map EvPrint (idle_prints decode debug (startup_banner s)) ++ new ++
       reset_pulse rst (reset_active s) ++
       [EvSwitchToOutput cs false; EvSwitchToOutput gpio0 true] ++ trace s)%list /\
    forallb is_uart_event new = true /\
    bytes_read new = startup_banner s /\
    pins (snd (start_bluetooth decode debug s)) =
      <[rst := Digital OUTPUT (negb (reset_active s))]>
      (<[cs := Digital OUTPUT false]>
      (<[gpio0 := Digital OUTPUT true]> (pins s))) /\
    attrs (snd (start_bluetooth decode debug s)) =
      <["_mode" := VInt BLUETOOTH]> (attrs s) /\
    rx_buffer (snd (start_bluetooth decode debug s)) = [].
Proof.
  intros Hb Hm Hw.
  destruct (start_bluetooth_idle_board decode debug s Hb Hm Hw)
    as (gpio0 & cs & rst & s4 & new & Hrun & Ha & _ & Htrace & Hread & Hev
        & Hg & Hc & Hr & Hpins & Hempty).
  exists gpio0, cs, rst, new. rewrite Hrun. unfold idle_prints.
  destruct (startup_banner s) as [| b0 banner] eqn:Hbanner.
  - cbn [raise snd map app]. auto 10.
  - rewrite handshake_state.
    destruct debug, (decode (b0 :: banner)) as [message |];
      fields; cbn [map app]; rewrite Htrace; auto 10.
Qed.

(** X5. From idle, on a wired instance, [start_bluetooth] straps before it
    resets, and it does so however the call ends: gpio0 is switched to a
    high output, then chip select to a low output, then comes the reset
    pulse, then the serial channel, and last the printing.  Afterwards
    gpio0 is an output at high, chip select an output at low and reset an
    output at the released level, all other pins are as before, the
    receiver is empty and the mode is [BLUETOOTH]: nothing is undone when
    the call raises. *)
Theorem start_bluetooth_straps_then_resets debug s :
  has_bleio s = true -> mode s = Some (VInt NOT_IN_USE) -> wired s = true ->
  exists gpio0 cs rst new prints,
    attrs s !! "_gpio0_and_rts" = Some (VPin gpio0) /\
    attrs s !! "_chip_select" = Some (VPin cs) /\
    attrs s !! "_reset" = Some (VPin rst) /\
    trace (snd (start_bluetooth decode debug s)) =
      (map EvPrint prints ++ new ++
       [EvSleep 1000; EvSetValue rst (negb (reset_active s));
        EvSleep 100; EvSetValue rst (reset_active s);
        EvSwitchToOutput cs false; EvSwitchToOutput gpio0 true] ++ trace s)%list /\
    forallb is_uart_event new = true /\
    pins (snd (start_bluetooth decode debug s)) =
      <[rst := Digital OUTPUT (negb (reset_active s))]>
      (<[cs := Digital OUTPUT false]>
      (<[gpio0 := Digital OUTPUT true]> (pins s))) /\
    rx_buffer (snd (start_bluetooth decode debug s)) = [] /\
    mode (snd (start_bluetooth decode debug s)) = Some (VInt BLUETOOTH).
Proof.
  intros Hb Hm Hw.
  destruct (start_bluetooth_idle_effects debug s Hb Hm Hw)
    as (gpio0 & cs & rst & new & Hg & Hc & Hr & Htrace & Hev & _ & Hpins & Ha & Hempty).
  exists gpio0, cs, rst, new, (idle_prints decode debug (startup_banner s)).
  repeat split; try assumption.
  unfold mode. rewrite Ha. apply lookup_insert_eq.
Qed.

Lemma printed_uart new : forallb is_uart_event new = true -> printed new = [].
Proof.
  induction new as [| e new IH]; [reflexivity |]. cbn [forallb].
  intros [He Hnew]%andb_true_iff. destruct e; try discriminate; exact (IH Hnew).
Qed.

Lemma printed_prints messages : printed (map EvPrint messages) = messages.
Proof.
  induction messages as [| message messages IH]; [reflexivity |].
  cbn. f_equal. exact IH.
Qed.

(** X6. From idle, on a wired instance, [start_bluetooth] prints at most
    once: the decoded banner, when [debug] is set and the banner is there
    and decodes.  Without [debug], without a banner, or with a banner that
    does not decode, the call prints nothing. *)
Theorem start_bluetooth_prints_banner debug s :
  has_bleio s = true -> mode s = Some (VInt NOT_IN_USE) -> wired s = true ->
  printed (trace (snd (start_bluetooth decode debug s))) =
    (idle_prints decode debug (startup_banner s) ++ printed (trace s))%list.
Proof.
  intros Hb Hm Hw.
  destruct (start_bluetooth_idle_effects debug s Hb Hm Hw)
    as (gpio0 & cs & rst & new & _ & _ & _ & -> & Hev & _).
  unfold printed at 1. rewrite !omap_app.
  fold (printed (map EvPrint (idle_prints decode debug (startup_banner s)))).
  fold (printed new). fold (printed (trace s)).
  rewrite printed_prints, (printed_uart _ Hev). reflexivity.
Qed.

(** A call keeps the mode among [NOT_IN_USE] and [BLUETOOTH]. *)
Lemma call_modes op s :
  mode s = Some (VInt NOT_IN_USE) \/ mode s = Some (VInt BLUETOOTH) ->
  mode (call decode op s) = Some (VInt NOT_IN_USE) \/
  mode (call decode op s) = Some (VInt BLUETOOTH).
Proof.
  intros Hm. destruct op as [debug | | |]; cbn [call]; try exact Hm.
  - destruct (start_bluetooth_steps decode debug s) as [-> | ([Ha _] & _)]; [exact Hm |].
    right. unfold mode. rewrite Ha. apply lookup_insert_eq.
  - destruct (stop_bluetooth_same_object s) as [Ha _]. unfold mode in *.
    rewrite Ha. exact Hm.
Qed.

Lemma calls_modes ops : forall s,
  mode s = Some (VInt NOT_IN_USE) \/ mode s = Some (VInt BLUETOOTH) ->
  mode (calls decode ops s) = Some (VInt NOT_IN_USE) \/
  mode (calls decode ops s) = Some (VInt BLUETOOTH).
Proof.
  induction ops as [| op ops IH]; intros s H; [exact H |].
  cbn [calls foldl]. apply IH, call_modes, H.
Qed.

(** X9. The public methods never lead to Wifi mode: on an instance built by
    the constructor the mode is [NOT_IN_USE] or [BLUETOOTH] after any
    sequence of calls. *)
Theorem reachable_modes a s0 s ops :
  ESP32 a s0 = (Returns tt, s) ->
  mode (calls decode ops s) = Some (VInt NOT_IN_USE) \/
  mode (calls decode ops s) = Some (VInt BLUETOOTH).
Proof.
  intros (_ & Hm & _)%ESP32_wired. apply calls_modes. left. exact Hm.
Qed.

(** X10. On an instance built by the constructor, after any sequence of
    calls, [start_bluetooth] ends in one of five ways: it returns
    [_bleio.adapter], or it raises [ImportError], the error for the missing
    startup message, the error for the garbled banner, or [AttributeError]
    for [_cts].  It never raises the Wifi mode conflict and never returns
    any other handle. *)
Theorem start_bluetooth_outcomes a s0 s ops debug :
  ESP32 a s0 = (Returns tt, s) ->
  fst (start_bluetooth decode debug (calls decode ops s)) ∈ start_outcomes.
Proof.
  intros H. pose proof (reachable_wired decode _ _ _ ops H) as Hw.
  assert (Hm : mode (calls decode ops s) = Some (VInt NOT_IN_USE) \/
               mode (calls decode ops s) = Some (VInt BLUETOOTH))
    by (apply calls_modes; left; apply (ESP32_wired _ _ _ H)).
  assert (Hcts : attrs (calls decode ops s) !! "_cts" = None).
  { rewrite calls_attrs by discriminate.
    apply ESP32_attrs in H as (_ & _ & _ & _ & _ & _ & _ & Hcts). exact Hcts. }
  revert Hw Hm Hcts. generalize (calls decode ops s). clear. intros s Hw Hm Hcts.
  unfold start_outcomes. rewrite !elem_of_cons.
  destruct (has_bleio s) eqn:Hb.
  - destruct Hm as [Hm | Hm].
    + destruct (start_bluetooth_idle_outcome decode debug s Hb Hm Hw)
        as (uart & rts & s' & new & _ & _ & -> & _).
      cbn [fst]. rewrite Hcts.
      destruct (startup_banner s) as [| b0 banner]; [auto |].
      destruct debug, (decode (b0 :: banner)); auto 6.
    + rewrite (start_bluetooth_in_bluetooth decode debug s Hb Hm). auto.
  - right. left. unfold start_bluetooth, _bleio.import, bind at 1 2, get.
    rewrite Hb. reflexivity.
Qed.

End Calls.

(** X11. On an instance built by the constructor, after any sequence of
    calls, [stop_bluetooth] returns: it never raises, whatever the serial
    channel holds or the co-processor sends. *)
Theorem stop_bluetooth_never_raises decode a s0 s ops :
  ESP32 a s0 = (Returns tt, s) ->
  fst (stop_bluetooth (calls decode ops s)) = Returns tt.
Proof.
  intros H. pose proof (reachable_wired decode _ _ _ ops H) as Hw.
  assert (Hm : mode (calls decode ops s) = Some (VInt NOT_IN_USE) \/
               mode (calls decode ops s) = Some (VInt BLUETOOTH))
    by (apply calls_modes; left; apply (ESP32_wired _ _ _ H)).
  revert Hw Hm. generalize (calls decode ops s). clear. intros s Hw Hm.
  destruct Hm as [Hm | Hm].
  - unfold stop_bluetooth.
    rewrite (bind_Returns _ _ _ _ _ (getattr_mode _ _ Hm)). reflexivity.
  - rewrite (stop_bluetooth_in_bluetooth _ Hm).
    apply wired_inv in Hw as ((pin & level & Hreset) & _ & _ & Hhigh & Hu).
    destruct (_reset_esp32_wired s pin level Hreset Hhigh Hu) as (s' & new & Hrun & _).
    rewrite (bind_Returns _ _ _ _ _ Hrun). reflexivity.
Qed.

(** X12. A start that was attempted cannot be tried again.  Once
    [start_bluetooth] has been called in mode [NOT_IN_USE] on a board with
    [_bleio], however that call ended, the next [start_bluetooth] returns
    [_bleio.adapter] at once and leaves the state as it is: no strapping, no
    reset, nothing read. *)
Theorem second_start_returns_adapter decode debug debug' s :
  has_bleio s = true -> mode s = Some (VInt NOT_IN_USE) ->
  start_bluetooth decode debug' (snd (start_bluetooth decode debug s)) =
    (Returns _bleio.adapter, snd (start_bluetooth decode debug s)).
Proof.
  intros Hb Hm. apply start_bluetooth_in_bluetooth.
  - destruct (start_bluetooth_steps decode debug s) as [-> | ([_ Hb'] & _)];
      [exact Hb | rewrite Hb'; exact Hb].
  - apply start_bluetooth_sets_mode; assumption.
Qed.

(** X13. In Bluetooth mode, on a wired instance, [stop_bluetooth] returns
    [None] whatever the reset sequence received, an empty banner included.
    It leaves the reset line an output at the released level, so the
    co-processor is running, not held in reset; the receiver is empty and no
    attribute has changed. *)
Theorem stop_bluetooth_releases_reset s :
  mode s = Some (VInt BLUETOOTH) -> wired s = true ->
  exists pin level s',
    digital_pin s "_reset" = Some (pin, OUTPUT, level) /\
    stop_bluetooth s = (Returns tt, s') /\
    pins s' = <[pin := Digital OUTPUT (negb (reset_active s))]> (pins s) /\
    rx_buffer s' = [] /\
    attrs s' = attrs s.
Proof.
  intros Hm ((pin & level & Hreset) & _ & _ & Hhigh & Hu)%wired_inv.
  destruct (_reset_esp32_wired s pin level Hreset Hhigh Hu)
    as (s' & new & Hrun & _ & _ & _ & _ & Hempty & Hpins & _).
  destruct (_reset_esp32_evolves _ _ _ Hrun) as ([Ha _] & _).
  exists pin, level, s'. repeat split; try assumption.
  rewrite (stop_bluetooth_in_bluetooth _ Hm).
  rewrite (bind_Returns _ _ _ _ _ Hrun). reflexivity.
Qed.

(** X14. The missing attribute is all that keeps [start_bluetooth] from
    returning.  From idle, on a wired instance to which an attribute [_cts]
    has been assigned, with a banner that is there and (when debugging)
    decodes, the call returns the adapter built over the instance's serial
    channel, with its gpio0 pin object for RTS and the value of [_cts] for
    CTS. *)
Theorem start_bluetooth_with_cts decode debug s cts :
  has_bleio s = true -> mode s = Some (VInt NOT_IN_USE) -> wired s = true ->
  attrs s !! "_cts" = Some cts ->
  startup_banner s <> [] ->
  (debug = true -> is_Some (decode (startup_banner s))) ->
  exists uart rts,
    attrs s !! "_uart" = Some uart /\
    attrs s !! "_gpio0_and_rts" = Some rts /\
    fst (start_bluetooth decode debug s) = Returns (bleio_Adapter uart rts cts).
Proof.
  intros Hb Hm Hw Hcts Hbanner Hdecode.
  destruct (start_bluetooth_idle_outcome decode debug s Hb Hm Hw)
    as (uart & rts & s' & new & Hu & Hg & -> & _).
  exists uart, rts. repeat split; try assumption.
  cbn [fst]. rewrite Hcts.
  destruct (startup_banner s) as [| b0 banner]; [congruence |].
  destruct debug; [| reflexivity].
  destruct (Hdecode eq_refl) as [message ->]. reflexivity.
Qed.

(** ** The further properties at work on a board *)

Lemma reset_pulses_then_releases_witness :
  wired (constructed [[]; [x41]]) = true /\
  exists pin level s' new,
    digital_pin (constructed [[]; [x41]]) "_reset" = Some (pin, OUTPUT, level) /\
    _reset_esp32 (constructed [[]; [x41]])
      = (Returns (startup_banner (constructed [[]; [x41]])), s') /\
    trace s' =
      (new ++ [EvSleep 1000;
               EvSetValue pin (negb (reset_active (constructed [[]; [x41]])));
               EvSleep 100;
               EvSetValue pin (reset_active (constructed [[]; [x41]]))]
           ++ trace (constructed [[]; [x41]]))%list /\
    forallb is_uart_event new = true /\
    (reads new <= 1 + length (wire (tick (tick (constructed [[]; [x41]])))))%nat /\
    pins s' =
      <[pin := Digital OUTPUT (negb (reset_active (constructed [[]; [x41]])))]>
        (pins (constructed [[]; [x41]])) /\
    attrs s' = attrs (constructed [[]; [x41]]).
Proof.
  split; [reflexivity |].
  apply (reset_pulses_then_releases (constructed [[]; [x41]])). reflexivity.
Defined.

Lemma reset_keeps_stale_bytes_witness :
  wired (with_rx [x58] (constructed [])) = true /\
  rx_buffer (with_rx [x58] (constructed [])) = [x58] /\
  exists later s',
    _reset_esp32 (with_rx [x58] (constructed []))
      = (Returns (rx_buffer (with_rx [x58] (constructed [])) ++ later)%list, s').
Proof.
  split; [reflexivity | split; [reflexivity |]].
  apply (reset_keeps_stale_bytes (with_rx [x58] (constructed []))). reflexivity.
Defined.

Lemma construction_leaves_witness :
  fst (ESP32 default_args (fresh_board [])) = Returns tt /\
  digital_pin (constructed []) "_gpio0_and_rts" = Some ("ESP_GPIO0", INPUT, false) /\
  digital_pin (constructed []) "_busy_and_cts" = Some ("ESP_BUSY", INPUT, false) /\
  digital_pin (constructed []) "_chip_select" = Some ("ESP_CS", INPUT, false) /\
  pins (constructed []) !! "ESP_TX" = Some Serial /\
  pins (constructed []) !! "ESP_RX" = Some Serial /\
  rx_buffer (constructed []) = [] /\
  trace (constructed []) = [EvSwitchToOutput "ESP_RESET" false] /\
  fst (ESP32 (mkInitArgs "ESP_RESET" "ESP_GPIO0" "ESP_BUSY" "ESP_CS" "ESP_TX" "ESP_RX"
                (Some (caller_SPI "SPI1")) false)
         (with_pins (<["D13" := Digital OUTPUT true]> ∅) (fresh_board [])))
    = Returns tt /\
  pins (snd (ESP32 (mkInitArgs "ESP_RESET" "ESP_GPIO0" "ESP_BUSY" "ESP_CS" "ESP_TX"
                      "ESP_RX" (Some (caller_SPI "SPI1")) false)
               (with_pins (<["D13" := Digital OUTPUT true]> ∅) (fresh_board []))))
    !! "D13" = Some (Digital OUTPUT true).
Proof.
  split; [reflexivity |].
  destruct (construction_leaves default_args (fresh_board []) (constructed []))
    as (_ & Hg & Hb & Hc & Htx & Hrx & _ & Hbuf & Htrace);
    [apply surjective_pairing |].
  destruct (construction_leaves
              (mkInitArgs "ESP_RESET" "ESP_GPIO0" "ESP_BUSY" "ESP_CS" "ESP_TX" "ESP_RX"
                 (Some (caller_SPI "SPI1")) false)
              (with_pins (<["D13" := Digital OUTPUT true]> ∅) (fresh_board []))
              (snd (ESP32 (mkInitArgs "ESP_RESET" "ESP_GPIO0" "ESP_BUSY" "ESP_CS"
                             "ESP_TX" "ESP_RX" (Some (caller_SPI "SPI1")) false)
                      (with_pins (<["D13" := Digital OUTPUT true]> ∅) (fresh_board [])))))
    as (_ & _ & _ & _ & _ & _ & Hother & _);
    [apply surjective_pairing |].
  do 8 (split; [first [assumption | reflexivity] |]).
  rewrite (Hother (ex_intro _ (caller_SPI "SPI1") eq_refl) "D13"); [reflexivity |].
  cbn [esp_reset esp_gpio0 esp_busy esp_cs esp_tx esp_rx].
  rewrite !not_elem_of_cons. repeat split; try discriminate. apply not_elem_of_nil.
Defined.

Lemma start_bluetooth_without_bleio_witness :
  has_bleio (without_bleio (in_mode BLUETOOTH (constructed []))) = false /\
  start_bluetooth Utf8.decode false (without_bleio (in_mode BLUETOOTH (constructed [])))
    = (Raises (ImportError "_bleio"),
       without_bleio (in_mode BLUETOOTH (constructed []))).
Proof.
  split; [reflexivity |].
  apply (start_bluetooth_without_bleio Utf8.decode false). reflexivity.
Defined.

Lemma start_bluetooth_straps_then_resets_witness :
  wired (constructed [[]; [x41]]) = true /\
  exists gpio0 cs rst new prints,
    attrs (constructed [[]; [x41]]) !! "_gpio0_and_rts" = Some (VPin gpio0) /\
    attrs (constructed [[]; [x41]]) !! "_chip_select" = Some (VPin cs) /\
    attrs (constructed [[]; [x41]]) !! "_reset" = Some (VPin rst) /\
    trace (snd (start_bluetooth Utf8.decode true (constructed [[]; [x41]]))) =
      (map EvPrint prints ++ new ++
       [EvSleep 1000;
        EvSetValue rst (negb (reset_active (constructed [[]; [x41]])));
        EvSleep 100;
        EvSetValue rst (reset_active (constructed [[]; [x41]]));
        EvSwitchToOutput cs false; EvSwitchToOutput gpio0 true]
       ++ trace (constructed [[]; [x41]]))%list /\
    forallb is_uart_event new = true /\
    pins (snd (start_bluetooth Utf8.decode true (constructed [[]; [x41]]))) =
      <[rst := Digital OUTPUT (negb (reset_active (constructed [[]; [x41]])))]>
      (<[cs := Digital OUTPUT false]>
      (<[gpio0 := Digital OUTPUT true]> (pins (constructed [[]; [x41]])))) /\
    rx_buffer (snd (start_bluetooth Utf8.decode true (constructed [[]; [x41]]))) = [] /\
    mode (snd (start_bluetooth Utf8.decode true (constructed [[]; [x41]])))
      = Some (VInt BLUETOOTH).
Proof.
  split; [reflexivity |].
  apply (start_bluetooth_straps_then_resets Utf8.decode true (constructed [[]; [x41]]));
    reflexivity.
Defined.

Lemma start_bluetooth_prints_banner_witness :
  wired (constructed [[]; [x41]]) = true /\
  idle_prints Utf8.decode true (startup_banner (constructed [[]; [x41]])) = [[65%N]] /\
  printed (trace (snd (start_bluetooth Utf8.decode true (constructed [[]; [x41]])))) =
    (idle_prints Utf8.decode true (startup_banner (constructed [[]; [x41]]))
       ++ printed (trace (constructed [[]; [x41]])))%list.
Proof.
  split; [reflexivity | split; [vm_compute; reflexivity |]].
  apply (start_bluetooth_prints_banner Utf8.decode true (constructed [[]; [x41]]));
    reflexivity.
Defined.

Lemma start_bluetooth_garbled_witness :
  wired (constructed [[]; [xff]]) = true /\
  startup_banner (constructed [[]; [xff]]) <> [] /\
  Utf8.decode (startup_banner (constructed [[]; [xff]])) = None /\
  fst (start_bluetooth Utf8.decode true (constructed [[]; [xff]]))
    = Raises GarbledStartup /\
  true = true /\ startup_banner (constructed [[]; [xff]]) <> [].
Proof.
  destruct (start_bluetooth_garbled Utf8.decode true (constructed [[]; [xff]]))
    as [Hif Honly]; [reflexivity | reflexivity | reflexivity |].
  assert (Hbanner : startup_banner (constructed [[]; [xff]]) <> [])
    by (vm_compute; discriminate).
  assert (Hdecode : Utf8.decode (startup_banner (constructed [[]; [xff]])) = None)
    by (vm_compute; reflexivity).
  split; [reflexivity | split; [exact Hbanner | split; [exact Hdecode |]]].
  split; [exact (Hif eq_refl Hbanner Hdecode) |].
  exact (Honly (Hif eq_refl Hbanner Hdecode)).
Defined.

Lemma constructed_never_builds_witness :
  fst (ESP32 default_args (fresh_board [[]; [x41]])) = Returns tt /\
  fst (start_bluetooth Utf8.decode false
         (calls Utf8.decode [StopBluetooth] (constructed [[]; [x41]])))
    <> Returns (bleio_Adapter (VUart "ESP_TX" "ESP_RX" 115200 0 512)
                  (VPin "ESP_GPIO0") (VPin "ESP_BUSY")).
Proof.
  split; [reflexivity |].
  apply (constructed_never_builds Utf8.decode default_args
           (fresh_board [[]; [x41]]) (constructed [[]; [x41]])).
  apply surjective_pairing.
Defined.

Lemma reachable_modes_witness :
  fst (ESP32 default_args (fresh_board [[]; [x41]])) = Returns tt /\
  (mode (calls Utf8.decode [StartBluetooth false; StopBluetooth; StartWifi]
           (constructed [[]; [x41]])) = Some (VInt NOT_IN_USE) \/
   mode (calls Utf8.decode [StartBluetooth false; StopBluetooth; StartWifi]
           (constructed [[]; [x41]])) = Some (VInt BLUETOOTH)).
Proof.
  split; [reflexivity |].
  apply (reachable_modes Utf8.decode default_args (fresh_board [[]; [x41]])).
  apply surjective_pairing.
Defined.

Lemma start_bluetooth_outcomes_witness :
  fst (ESP32 default_args (fresh_board [[]; [x41]])) = Returns tt /\
  fst (start_bluetooth Utf8.decode true
         (calls Utf8.decode [StopBluetooth; StopWifi] (constructed [[]; [x41]])))
    ∈ start_outcomes.
Proof.
  split; [reflexivity |].
  apply (start_bluetooth_outcomes Utf8.decode default_args (fresh_board [[]; [x41]])).
  apply surjective_pairing.
Defined.

Lemma stop_bluetooth_never_raises_witness :
  fst (ESP32 default_args (fresh_board [[]; [x41]; []; []; [x42]])) = Returns tt /\
  fst (stop_bluetooth
         (calls Utf8.decode [StartBluetooth false]
            (constructed [[]; [x41]; []; []; [x42]]))) = Returns tt.
Proof.
  split; [reflexivity |].
  apply (stop_bluetooth_never_raises Utf8.decode default_args
           (fresh_board [[]; [x41]; []; []; [x42]])).
  apply surjective_pairing.
Defined.

Lemma second_start_returns_adapter_witness :
  mode (constructed []) = Some (VInt NOT_IN_USE) /\
  fst (start_bluetooth Utf8.decode false (constructed [])) = Raises NoStartupResponse /\
  start_bluetooth Utf8.decode true
    (snd (start_bluetooth Utf8.decode false (constructed [])))
    = (Returns _bleio.adapter,
       snd (start_bluetooth Utf8.decode false (constructed []))).
Proof.
  split; [reflexivity | split; [vm_compute; reflexivity |]].
  apply (second_start_returns_adapter Utf8.decode false true (constructed []));
    reflexivity.
Defined.

Lemma stop_bluetooth_releases_reset_witness :
  mode (in_mode BLUETOOTH (constructed [])) = Some (VInt BLUETOOTH) /\
  wired (in_mode BLUETOOTH (constructed [])) = true /\
  startup_banner (in_mode BLUETOOTH (constructed [])) = [] /\
  exists pin level s',
    digital_pin (in_mode BLUETOOTH (constructed [])) "_reset"
      = Some (pin, OUTPUT, level) /\
    stop_bluetooth (in_mode BLUETOOTH (constructed [])) = (Returns tt, s') /\
    pins s' =
      <[pin := Digital OUTPUT (negb (reset_active (in_mode BLUETOOTH (constructed []))))]>
        (pins (in_mode BLUETOOTH (constructed []))) /\
    rx_buffer s' = [] /\
    attrs s' = attrs (in_mode BLUETOOTH (constructed [])).
Proof.
  split; [reflexivity | split; [reflexivity | split; [reflexivity |]]].
  apply (stop_bluetooth_releases_reset (in_mode BLUETOOTH (constructed [])));
    reflexivity.
Defined.

Lemma start_bluetooth_with_cts_witness :
  attrs (with_attrs (<["_cts" := VPin "ESP_BUSY"]> (attrs (constructed [[]; [x41]])))
           (constructed [[]; [x41]])) !! "_cts" = Some (VPin "ESP_BUSY") /\
  exists uart rts,
    attrs (with_attrs (<["_cts" := VPin "ESP_BUSY"]> (attrs (constructed [[]; [x41]])))
             (constructed [[]; [x41]])) !! "_uart" = Some uart /\
    attrs (with_attrs (<["_cts" := VPin "ESP_BUSY"]> (attrs (constructed [[]; [x41]])))
             (constructed [[]; [x41]])) !! "_gpio0_and_rts" = Some rts /\
    fst (start_bluetooth Utf8.decode true
           (with_attrs (<["_cts" := VPin "ESP_BUSY"]> (attrs (constructed [[]; [x41]])))
              (constructed [[]; [x41]])))
      = Returns (bleio_Adapter uart rts (VPin "ESP_BUSY")).
Proof.
  split; [reflexivity |].
  apply (start_bluetooth_with_cts Utf8.decode true
           (with_attrs (<["_cts" := VPin "ESP_BUSY"]> (attrs (constructed [[]; [x41]])))
              (constructed [[]; [x41]]))
           (VPin "ESP_BUSY"));
    [reflexivity | reflexivity | reflexivity | reflexivity
    | vm_compute; discriminate
    | intros _; vm_compute; eexists; reflexivity].
Defined.
